(** * UCP demo merchant: the checkout session service

    A shallow embedding of [src/checkout.ts] (with the catalog and the
    in-memory stores of [src/data.ts] and the shapes of [src/types.ts]) and
    the properties of the checkout state machine, the line-item resolver and
    the totals calculator.

    Conventions of the embedding.
    - Money amounts and quantities are JavaScript numbers holding integers
      (minor currency units); they are modelled in [Z], which agrees with
      the IEEE arithmetic of the program as long as the magnitudes stay in
      the safe-integer range.  The one computation of the program that
      leaves the integers, [Math.round(subtotal * TAX_RATE)], is modelled
      with the binary64 operations of [SpecFloat].
    - Timestamps ([Date] values and their ISO strings) are milliseconds
      since the epoch, in [Z]; the reading of the clock is a parameter of
      each handler.
    - [uuidv4()] draws from a source of identifiers, [uuidv4 : nat -> string],
      indexed by the number of identifiers drawn so far.
    - Session objects live in a heap and the [Map] of sessions holds
      references to them, as in the program: an assignment to a field of
      [checkout] is visible through the map at once. *)

From Stdlib Require Import ZArith Lia Ascii String SpecFloat.
From stdpp Require Import base option list strings pretty gmap.

Local Open Scope string_scope.
Local Open Scope list_scope.
Local Open Scope Z_scope.

(** ** JavaScript values *)

Module JS.

(** Truthiness of an optional string: [undefined] and the empty string are
    falsy. *)
Definition truthy (s : option string) : bool :=
  match s with
  | Some s => negb (bool_decide (s = ""))
  | None => false
  end.

(** binary64 *)
Definition prec : Z := 53.
Definition emax : Z := 1024.

(** The double nearest to an integer. *)
Definition number (z : Z) : spec_float := binary_normalize prec emax z 0 false.

Definition mul (x y : spec_float) : spec_float := SFmul prec emax x y.

(** [Math.round]: the integer nearest to [x], ties towards +infinity, that
    is floor(x + 1/2) computed exactly.  On NaN and the infinities
    [Math.round] returns its argument; these do not arise from a product of
    two finite doubles one of which is below 1, and are sent to 0. *)
Definition Math_round (x : spec_float) : Z :=
  match x with
  | S754_finite s m e =>
      let v := cond_Zopp s (Z.pos m) in
      if 0 <=? e then v * 2 ^ e
      else (2 * v + 2 ^ (- e)) / 2 ^ (- e + 1)
  | _ => 0
  end.

(** [toUpperCase] on ASCII letters. *)
Definition upper (a : ascii) : ascii :=
  let n := nat_of_ascii a in
  if ((97 <=? n) && (n <=? 122))%nat then ascii_of_nat (n - 32) else a.

Fixpoint toUpperCase (s : string) : string :=
  match s with
  | EmptyString => EmptyString
  | String a s => String (upper a) (toUpperCase s)
  end.

(** [s.slice(0, n)] *)
Definition slice0 (n : nat) (s : string) : string := substring 0 n s.

End JS.

(** ** Data model ([src/types.ts]) *)

Record Product := {
  product_id : string;
  product_name : string;
  product_description : string;
  product_price : Z;
  product_currency : string;
  product_image_url : option string;
  product_in_stock : bool
}.

Record LineItemRequest := {
  req_item_id : string;
  req_quantity : Z
}.

Record ItemSnapshot := {
  item_id : string;
  item_name : string;
  item_description : string;
  item_image_url : option string
}.

Record LineItemResponse := {
  li_id : string;
  li_item : ItemSnapshot;
  li_quantity : Z;
  li_unit_price : Z;
  li_total_price : Z
}.

Record PaymentInstrument := {
  instrument_id : string;
  instrument_handler_id : string;
  instrument_type : string;
  instrument_display_name : option string
}.

Record PaymentRequest := {
  preq_selected_instrument_id : option string;
  preq_instruments : option (list PaymentInstrument)
}.

Inductive PaymentStatus := pending | authorized | captured | failed.

Record PaymentResponse := {
  pay_selected_instrument_id : option string;
  pay_instruments : list PaymentInstrument;
  pay_status : PaymentStatus
}.

Record PaymentDataBody := {
  pd_handler_id : option string;
  pd_token : option string
}.

Record PaymentData := {
  payment_data : option PaymentDataBody
}.

Inductive CheckoutStatus :=
| incomplete
| requires_escalation
| ready_for_complete
| complete_in_progress
| completed
| canceled.

Record Totals := {
  subtotal : Z;
  tax : Z;
  shipping : Z;
  discount : Z;
  total : Z
}.

Record Link := {
  link_rel : string;
  link_href : string;
  link_title : option string
}.

Record Buyer := {
  buyer_email : option string;
  buyer_name : option string;
  buyer_phone : option string
}.

Inductive MessageType := info | warning | error.

Record Message := {
  msg_type : MessageType;
  msg_code : string;
  msg_message : string
}.

Record OrderConfirmation := {
  oc_id : string;
  oc_created_at : Z
}.

Record CheckoutCreateRequest := {
  create_line_items : option (list LineItemRequest);
  create_currency : option string;
  create_payment : option PaymentRequest;
  create_buyer : option Buyer
}.

Record CheckoutUpdateRequest := {
  update_line_items : option (list LineItemRequest);
  update_payment : option PaymentRequest;
  update_buyer : option Buyer
}.

Record Capability := {
  cap_name : string;
  cap_version : string
}.

Record UcpHeader := {
  ucp_version : string;
  ucp_capabilities : list Capability
}.

Record CheckoutResponse := {
  co_ucp : UcpHeader;
  co_id : string;
  co_status : CheckoutStatus;
  co_line_items : list LineItemResponse;
  co_currency : string;
  co_totals : Totals;
  co_payment : PaymentResponse;
  co_links : list Link;
  co_buyer : option Buyer;
  co_messages : option (list Message);
  co_expires_at : Z;
  co_continue_url : option string;
  co_order : option OrderConfirmation
}.

Inductive OrderStatus :=
| order_pending
| order_processing
| order_shipped
| order_delivered
| order_canceled.

Record Order := {
  order_id : string;
  order_checkout_id : string;
  order_status : OrderStatus;
  order_line_items : list LineItemResponse;
  order_totals : Totals;
  order_buyer : option Buyer;
  order_created_at : Z;
  order_updated_at : Z
}.

#[export] Instance CheckoutStatus_eq_dec : EqDecision CheckoutStatus.
Proof. solve_decision. Defined.

(** Field assignments [checkout.f = v]. *)

Definition set_status (v : CheckoutStatus) (c : CheckoutResponse) : CheckoutResponse :=
  {| co_ucp := co_ucp c; co_id := co_id c; co_status := v;
     co_line_items := co_line_items c; co_currency := co_currency c;
     co_totals := co_totals c; co_payment := co_payment c;
     co_links := co_links c; co_buyer := co_buyer c;
     co_messages := co_messages c; co_expires_at := co_expires_at c;
     co_continue_url := co_continue_url c; co_order := co_order c |}.

Definition set_line_items (v : list LineItemResponse) (c : CheckoutResponse) : CheckoutResponse :=
  {| co_ucp := co_ucp c; co_id := co_id c; co_status := co_status c;
     co_line_items := v; co_currency := co_currency c;
     co_totals := co_totals c; co_payment := co_payment c;
     co_links := co_links c; co_buyer := co_buyer c;
     co_messages := co_messages c; co_expires_at := co_expires_at c;
     co_continue_url := co_continue_url c; co_order := co_order c |}.

Definition set_totals (v : Totals) (c : CheckoutResponse) : CheckoutResponse :=
  {| co_ucp := co_ucp c; co_id := co_id c; co_status := co_status c;
     co_line_items := co_line_items c; co_currency := co_currency c;
     co_totals := v; co_payment := co_payment c;
     co_links := co_links c; co_buyer := co_buyer c;
     co_messages := co_messages c; co_expires_at := co_expires_at c;
     co_continue_url := co_continue_url c; co_order := co_order c |}.

Definition set_payment (v : PaymentResponse) (c : CheckoutResponse) : CheckoutResponse :=
  {| co_ucp := co_ucp c; co_id := co_id c; co_status := co_status c;
     co_line_items := co_line_items c; co_currency := co_currency c;
     co_totals := co_totals c; co_payment := v;
     co_links := co_links c; co_buyer := co_buyer c;
     co_messages := co_messages c; co_expires_at := co_expires_at c;
     co_continue_url := co_continue_url c; co_order := co_order c |}.

Definition set_buyer (v : option Buyer) (c : CheckoutResponse) : CheckoutResponse :=
  {| co_ucp := co_ucp c; co_id := co_id c; co_status := co_status c;
     co_line_items := co_line_items c; co_currency := co_currency c;
     co_totals := co_totals c; co_payment := co_payment c;
     co_links := co_links c; co_buyer := v;
     co_messages := co_messages c; co_expires_at := co_expires_at c;
     co_continue_url := co_continue_url c; co_order := co_order c |}.

Definition set_messages (v : option (list Message)) (c : CheckoutResponse) : CheckoutResponse :=
  {| co_ucp := co_ucp c; co_id := co_id c; co_status := co_status c;
     co_line_items := co_line_items c; co_currency := co_currency c;
     co_totals := co_totals c; co_payment := co_payment c;
     co_links := co_links c; co_buyer := co_buyer c;
     co_messages := v; co_expires_at := co_expires_at c;
     co_continue_url := co_continue_url c; co_order := co_order c |}.

Definition set_expires_at (v : Z) (c : CheckoutResponse) : CheckoutResponse :=
  {| co_ucp := co_ucp c; co_id := co_id c; co_status := co_status c;
     co_line_items := co_line_items c; co_currency := co_currency c;
     co_totals := co_totals c; co_payment := co_payment c;
     co_links := co_links c; co_buyer := co_buyer c;
     co_messages := co_messages c; co_expires_at := v;
     co_continue_url := co_continue_url c; co_order := co_order c |}.

Definition set_order (v : option OrderConfirmation) (c : CheckoutResponse) : CheckoutResponse :=
  {| co_ucp := co_ucp c; co_id := co_id c; co_status := co_status c;
     co_line_items := co_line_items c; co_currency := co_currency c;
     co_totals := co_totals c; co_payment := co_payment c;
     co_links := co_links c; co_buyer := co_buyer c;
     co_messages := co_messages c; co_expires_at := co_expires_at c;
     co_continue_url := co_continue_url c; co_order := v |}.

(** [checkout.payment.status = v] *)
Definition set_payment_status (v : PaymentStatus) (c : CheckoutResponse) : CheckoutResponse :=
  set_payment {| pay_selected_instrument_id := pay_selected_instrument_id (co_payment c);
                 pay_instruments := pay_instruments (co_payment c);
                 pay_status := v |} c.

(** ** Responses of the handlers *)

Inductive Body :=
| body_error (error : string)
| body_not_ready (error : string) (current_status : CheckoutStatus) (hint : string)
| body_checkout (checkout : CheckoutResponse).

Record Response := {
  res_body : Body;
  res_status : Z
}.

(** [c.json(body, status)]; the status of [c.json(body)] is 200. *)
Definition json (b : Body) (status : Z) : Response :=
  {| res_body := b; res_status := status |}.

(** ** The stores ([src/data.ts]) *)

(** A call of [saveCheckout] or [saveOrder], with the value saved. *)
Inductive Saved :=
| saved_checkout (c : CheckoutResponse)
| saved_order (o : Order).

(** [heap] holds the session objects and [checkoutSessions] the references
    the [Map] keeps; [drawn] counts the identifiers taken from [uuidv4];
    [journal] records the calls of [saveCheckout] and [saveOrder], oldest
    first. *)
Record Store := {
  heap : list CheckoutResponse;
  checkoutSessions : gmap string nat;
  orders : gmap string Order;
  drawn : nat;
  journal : list Saved
}.

Definition status_name (s : CheckoutStatus) : string :=
  match s with
  | incomplete => "incomplete"
  | requires_escalation => "requires_escalation"
  | ready_for_complete => "ready_for_complete"
  | complete_in_progress => "complete_in_progress"
  | completed => "completed"
  | canceled => "canceled"
  end.

(** [checkoutSessions.get(id)]: the reference and the object it points to. *)
Definition getCheckout (id : string) (st : Store) : option (nat * CheckoutResponse) :=
  match checkoutSessions st !! id with
  | Some l => match heap st !! l with
              | Some c => Some (l, c)
              | None => None
              end
  | None => None
  end.

(** The object at reference [l] now has the fields of [c]. *)
Definition assign (l : nat) (c : CheckoutResponse) (st : Store) : Store :=
  {| heap := <[l := c]> (heap st);
     checkoutSessions := checkoutSessions st;
     orders := orders st;
     drawn := drawn st;
     journal := journal st |}.

(** [checkoutSessions.set(checkout.id, checkout)] for the object at [l],
    whose fields are [c]. *)
Definition saveCheckout (l : nat) (c : CheckoutResponse) (st : Store) : Store :=
  {| heap := heap st;
     checkoutSessions := <[co_id c := l]> (checkoutSessions st);
     orders := orders st;
     drawn := drawn st;
     journal := journal st ++ [saved_checkout c] |}.

(** [orders.set(order.id, order)] *)
Definition saveOrder (o : Order) (st : Store) : Store :=
  {| heap := heap st;
     checkoutSessions := checkoutSessions st;
     orders := <[order_id o := o]> (orders st);
     drawn := drawn st;
     journal := journal st ++ [saved_order o] |}.

(** A new object; its reference is the next free cell. *)
Definition alloc (c : CheckoutResponse) (st : Store) : nat * Store :=
  (length (heap st),
   {| heap := heap st ++ [c];
      checkoutSessions := checkoutSessions st;
      orders := orders st;
      drawn := drawn st;
      journal := journal st |}).

Definition set_drawn (n : nat) (st : Store) : Store :=
  {| heap := heap st;
     checkoutSessions := checkoutSessions st;
     orders := orders st;
     drawn := n;
     journal := journal st |}.

(** ** The checkout service ([src/checkout.ts]) *)

Definition UCP_VERSION : string := "2026-01-11".

(** [0.0875] as a double: 0x1.6666666666666p-4. *)
Definition TAX_RATE : spec_float := S754_finite false 6305039478318694 (-56).

Definition CHECKOUT_TTL_HOURS : Z := 6.

Section Checkout.

(** The catalog, [products] of [src/data.ts], and the source of
    identifiers. *)
Variable products : gmap string Product.
Variable uuidv4 : nat -> string.

Definition getProduct (id : string) : option Product := products !! id.

(** One turn of the loop of [resolveLineItems]: [items], [errors] and the
    number of identifiers drawn. *)
Definition resolve_step (currency : string)
    (acc : list LineItemResponse * list string * nat) (req : LineItemRequest)
    : list LineItemResponse * list string * nat :=
  let '(items, errors, n) := acc in
  match getProduct (req_item_id req) with
  | None =>
      (items, errors ++ ["Product not found: " +:+ req_item_id req], n)
  | Some product =>
      if negb (product_in_stock product) then
        (items, errors ++ ["Product out of stock: " +:+ product_name product], n)
      else if negb (bool_decide (product_currency product = currency)) then
        (items,
         errors ++ ["Currency mismatch for " +:+ product_name product +:+
                    ": expected " +:+ currency +:+
                    ", got " +:+ product_currency product],
         n)
      else
        (items ++ [{| li_id := uuidv4 n;
                      li_item := {| item_id := product_id product;
                                    item_name := product_name product;
                                    item_description := product_description product;
                                    item_image_url := product_image_url product |};
                      li_quantity := req_quantity req;
                      li_unit_price := product_price product;
                      li_total_price := product_price product * req_quantity req |}],
         errors, S n)
  end.

Definition resolveLineItems (requests : list LineItemRequest) (currency : string)
    (n : nat) : list LineItemResponse * list string * nat :=
  fold_left (resolve_step currency) requests ([], [], n).

Definition calculateTotals (lineItems : list LineItemResponse) : Totals :=
  let subtotal := fold_left (fun sum item => sum + li_total_price item) lineItems 0 in
  let tax := JS.Math_round (JS.mul (JS.number subtotal) TAX_RATE) in
  let shipping := if 5000 <=? subtotal then 0 else 599 in
  let discount := 0 in
  {| subtotal := subtotal;
     tax := tax;
     shipping := shipping;
     discount := discount;
     total := subtotal + tax + shipping - discount |}.

Definition determineStatus (checkout : CheckoutResponse) : CheckoutStatus :=
  let hasItems := (0 <? length (co_line_items checkout))%nat in
  let hasPayment := JS.truthy (pay_selected_instrument_id (co_payment checkout)) in
  if negb hasItems then incomplete
  else if negb hasPayment then incomplete
  else ready_for_complete.

(** [setHours(getHours() + CHECKOUT_TTL_HOURS)] on the clock reading [now]. *)
Definition getExpiresAt (now : Z) : Z := now + CHECKOUT_TTL_HOURS * 3600000.

Definition item_error (e : string) : Message :=
  {| msg_type := error; msg_code := "ITEM_ERROR"; msg_message := e |}.

Definition default_instruments : list PaymentInstrument :=
  [ {| instrument_id := "mock-instrument-1";
       instrument_handler_id := "mock-payment-handler";
       instrument_type := "token";
       instrument_display_name := Some "Test Payment" |} ].

Definition legal_links : list Link :=
  [ {| link_rel := "terms"; link_href := "https://example.com/terms";
       link_title := Some "Terms of Service" |};
    {| link_rel := "privacy"; link_href := "https://example.com/privacy";
       link_title := Some "Privacy Policy" |};
    {| link_rel := "refund"; link_href := "https://example.com/refund";
       link_title := Some "Refund Policy" |} ].

(** POST /checkout-sessions *)
Definition post_checkout_sessions (now : Z) (body : CheckoutCreateRequest)
    (st : Store) : Response * Store :=
  match create_line_items body with
  | None | Some [] =>
      (json (body_error "line_items is required and cannot be empty") 400, st)
  | Some line_items =>
      if negb (JS.truthy (create_currency body)) then
        (json (body_error "currency is required") 400, st)
      else
        let currency := default "" (create_currency body) in
        let '(items, errors, n) := resolveLineItems line_items currency (drawn st) in
        let checkout :=
          {| co_ucp := {| ucp_version := UCP_VERSION;
                          ucp_capabilities :=
                            [ {| cap_name := "dev.ucp.shopping.checkout";
                                 cap_version := UCP_VERSION |} ] |};
             co_id := uuidv4 n;
             co_status := incomplete;
             co_line_items := items;
             co_currency := currency;
             co_totals := calculateTotals items;
             co_payment :=
               {| pay_selected_instrument_id :=
                    create_payment body ≫= preq_selected_instrument_id;
                  pay_instruments :=
                    default default_instruments
                            (create_payment body ≫= preq_instruments);
                  pay_status := pending |};
             co_links := legal_links;
             co_buyer := create_buyer body;
             co_messages :=
               if (0 <? length errors)%nat then Some (item_error <$> errors)
               else None;
             co_expires_at := getExpiresAt now;
             co_continue_url := None;
             co_order := None |} in
        let checkout := set_status (determineStatus checkout) checkout in
        let '(l, st) := alloc checkout (set_drawn (S n) st) in
        let st := saveCheckout l checkout st in
        (json (body_checkout checkout) 201, st)
  end.

Definition expired_message : Message :=
  {| msg_type := error; msg_code := "EXPIRED";
     msg_message := "Checkout session has expired" |}.

(** GET /checkout-sessions/:id *)
Definition get_checkout_session (now : Z) (id : string) (st : Store)
    : Response * Store :=
  match getCheckout id st with
  | None => (json (body_error "Checkout session not found") 404, st)
  | Some (l, checkout) =>
      if co_expires_at checkout <? now then
        let checkout := set_status canceled checkout in
        let checkout :=
          set_messages (Some (default [] (co_messages checkout) ++ [expired_message]))
                       checkout in
        let st := assign l checkout st in
        let st := saveCheckout l checkout st in
        (json (body_checkout checkout) 200, st)
      else
        (json (body_checkout checkout) 200, st)
  end.

(** PUT /checkout-sessions/:id *)
Definition put_checkout_session (now : Z) (id : string)
    (body : CheckoutUpdateRequest) (st : Store) : Response * Store :=
  match getCheckout id st with
  | None => (json (body_error "Checkout session not found") 404, st)
  | Some (l, checkout) =>
      if bool_decide (co_status checkout = completed)
         || bool_decide (co_status checkout = canceled) then
        (json (body_error ("Cannot update " +:+ status_name (co_status checkout)
                           +:+ " checkout")) 400, st)
      else
        let '(checkout, st) :=
          match update_line_items body with
          | Some line_items =>
              let '(items, errors, n) :=
                resolveLineItems line_items (co_currency checkout) (drawn st) in
              let checkout := set_line_items items checkout in
              let checkout := set_totals (calculateTotals items) checkout in
              let checkout :=
                if (0 <? length errors)%nat
                then set_messages (Some (item_error <$> errors)) checkout
                else checkout in
              (checkout, set_drawn n st)
          | None => (checkout, st)
          end in
        let checkout :=
          match update_payment body with
          | Some payment =>
              set_payment
                {| pay_selected_instrument_id := preq_selected_instrument_id payment;
                   pay_instruments :=
                     default (pay_instruments (co_payment checkout))
                             (preq_instruments payment);
                   pay_status := pay_status (co_payment checkout) |}
                checkout
          | None => checkout
          end in
        let checkout :=
          match update_buyer body with
          | Some buyer => set_buyer (Some buyer) checkout
          | None => checkout
          end in
        let checkout := set_status (determineStatus checkout) checkout in
        let checkout := set_expires_at (getExpiresAt now) checkout in
        let st := assign l checkout st in
        let st := saveCheckout l checkout st in
        (json (body_checkout checkout) 200, st)
  end.

Definition payment_failed_message : Message :=
  {| msg_type := error; msg_code := "PAYMENT_FAILED";
     msg_message := "Payment was declined" |}.

(** POST /checkout-sessions/:id/complete; [now] and [now'] are the two
    readings of the clock for the order's [created_at] and [updated_at]. *)
Definition post_complete (now now' : Z) (id : string) (body : PaymentData)
    (st : Store) : Response * Store :=
  match getCheckout id st with
  | None => (json (body_error "Checkout session not found") 404, st)
  | Some (l, checkout) =>
      if bool_decide (co_status checkout = completed) then
        (json (body_error "Checkout already completed") 400, st)
      else if bool_decide (co_status checkout = canceled) then
        (json (body_error "Cannot complete canceled checkout") 400, st)
      else if negb (bool_decide (co_status checkout = ready_for_complete)) then
        (json (body_not_ready
                 "Checkout not ready for completion"
                 (co_status checkout)
                 "Ensure all required fields are set (line_items, payment selection)")
              400, st)
      else
        match payment_data body with
        | None => (json (body_error "payment_data.handler_id is required") 400, st)
        | Some data =>
            if negb (JS.truthy (pd_handler_id data)) then
              (json (body_error "payment_data.handler_id is required") 400, st)
            else
              let checkout := set_status complete_in_progress checkout in
              let st := assign l checkout st in
              let st := saveCheckout l checkout st in
              if bool_decide (pd_token data = Some "fail_token") then
                let checkout := set_status ready_for_complete checkout in
                let checkout := set_payment_status failed checkout in
                let checkout := set_messages (Some [payment_failed_message]) checkout in
                let st := assign l checkout st in
                let st := saveCheckout l checkout st in
                (json (body_checkout checkout) 400, st)
              else
                let order :=
                  {| order_id :=
                       "ORD-" +:+ JS.toUpperCase (JS.slice0 8 (uuidv4 (drawn st)));
                     order_checkout_id := co_id checkout;
                     order_status := order_pending;
                     order_line_items := co_line_items checkout;
                     order_totals := co_totals checkout;
                     order_buyer := co_buyer checkout;
                     order_created_at := now;
                     order_updated_at := now' |} in
                let st := saveOrder order (set_drawn (S (drawn st)) st) in
                let checkout := set_status completed checkout in
                let checkout := set_payment_status captured checkout in
                let checkout :=
                  set_order (Some {| oc_id := order_id order;
                                     oc_created_at := order_created_at order |})
                            checkout in
                let st := assign l checkout st in
                let st := saveCheckout l checkout st in
                (json (body_checkout checkout) 200, st)
        end
  end.

Definition canceled_message : Message :=
  {| msg_type := info; msg_code := "CANCELED";
     msg_message := "Checkout was canceled" |}.

(** POST /checkout-sessions/:id/cancel *)
Definition post_cancel (id : string) (st : Store) : Response * Store :=
  match getCheckout id st with
  | None => (json (body_error "Checkout session not found") 404, st)
  | Some (l, checkout) =>
      if bool_decide (co_status checkout = completed) then
        (json (body_error "Cannot cancel completed checkout") 400, st)
      else if bool_decide (co_status checkout = canceled) then
        (json (body_checkout checkout) 200, st)
      else
        let checkout := set_status canceled checkout in
        let checkout :=
          set_messages (Some (default [] (co_messages checkout) ++ [canceled_message]))
                       checkout in
        let st := assign l checkout st in
        let st := saveCheckout l checkout st in
        (json (body_checkout checkout) 200, st)
  end.

End Checkout.

(** ** The catalog of [src/data.ts] and a run of the service *)

Definition flower_shop : gmap string Product :=
  list_to_map
    [ ("rose-bouquet",
       {| product_id := "rose-bouquet";
          product_name := "Classic Rose Bouquet";
          product_description := "A dozen fresh red roses, beautifully arranged";
          product_price := 4999;
          product_currency := "USD";
          product_image_url := Some "https://example.com/images/rose-bouquet.jpg";
          product_in_stock := true |});
      ("tulip-arrangement",
       {| product_id := "tulip-arrangement";
          product_name := "Spring Tulip Arrangement";
          product_description := "Colorful tulips in a decorative vase";
          product_price := 3499;
          product_currency := "USD";
          product_image_url := Some "https://example.com/images/tulips.jpg";
          product_in_stock := true |});
      ("orchid-plant",
       {| product_id := "orchid-plant";
          product_name := "Phalaenopsis Orchid";
          product_description := "Elegant white orchid in a ceramic pot";
          product_price := 5999;
          product_currency := "USD";
          product_image_url := Some "https://example.com/images/orchid.jpg";
          product_in_stock := true |});
      ("sunflower-bunch",
       {| product_id := "sunflower-bunch";
          product_name := "Sunflower Bunch";
          product_description := "Bright and cheerful sunflowers, 6 stems";
          product_price := 2499;
          product_currency := "USD";
          product_image_url := Some "https://example.com/images/sunflowers.jpg";
          product_in_stock := true |});
      ("mixed-wildflowers",
       {| product_id := "mixed-wildflowers";
          product_name := "Mixed Wildflower Bouquet";
          product_description := "A rustic arrangement of seasonal wildflowers";
          product_price := 2999;
          product_currency := "USD";
          product_image_url := Some "https://example.com/images/wildflowers.jpg";
          product_in_stock := false |}) ].

(** A source of identifiers for the runs below. *)
Definition demo_uuid (n : nat) : string :=
  "0000abcd-0000-4000-8000-00000000000" +:+ String (ascii_of_nat (97 + n)) "".

Definition empty_store : Store :=
  {| heap := []; checkoutSessions := ∅; orders := ∅; drawn := 0%nat; journal := [] |}.

Definition request (id : string) (quantity : Z) : LineItemRequest :=
  {| req_item_id := id; req_quantity := quantity |}.

Definition mock_selection : PaymentRequest :=
  {| preq_selected_instrument_id := Some "mock-instrument-1";
     preq_instruments := None |}.

(** Create at time 0 with the mock instrument selected. *)
Definition create_with (line_items : list LineItemRequest)
    (payment : option PaymentRequest) : CheckoutCreateRequest :=
  {| create_line_items := Some line_items;
     create_currency := Some "USD";
     create_payment := payment;
     create_buyer := None |}.

(** One rose bouquet, payment selected: the session is born
    [ready_for_complete]; its id is the second identifier drawn. *)
Definition ready_run : Response * Store :=
  post_checkout_sessions flower_shop demo_uuid 0
    (create_with [request "rose-bouquet" 1] (Some mock_selection)) empty_store.

Definition ready_id : string := demo_uuid 1.

Definition pay_with (handler_id token : option string) : PaymentData :=
  {| payment_data := Some {| pd_handler_id := handler_id; pd_token := token |} |}.

(** The session of [ready_run], completed at time 1000. *)
Definition completed_run : Response * Store :=
  post_complete demo_uuid 1000 1000 ready_id
    (pay_with (Some "mock-payment-handler") (Some "success_token")) (ready_run.2).

(** The time at which the sessions created at time 0 expire, and a later
    time. *)
Definition expiry : Z := getExpiresAt 0.
Definition after_expiry : Z := expiry + 1.

(** The session a response carries ([blank] when it carries none). *)
Definition blank : CheckoutResponse :=
  {| co_ucp := {| ucp_version := ""; ucp_capabilities := [] |};
     co_id := ""; co_status := incomplete; co_line_items := [];
     co_currency := "";
     co_totals := {| subtotal := 0; tax := 0; shipping := 0; discount := 0; total := 0 |};
     co_payment := {| pay_selected_instrument_id := None; pay_instruments := [];
                      pay_status := pending |};
     co_links := []; co_buyer := None; co_messages := None; co_expires_at := 0;
     co_continue_url := None; co_order := None |}.

Definition session_of (r : Response) : CheckoutResponse :=
  match res_body r with
  | body_checkout c => c
  | _ => blank
  end.

Definition ready_session : CheckoutResponse := session_of ready_run.1.
Definition completed_session : CheckoutResponse := session_of completed_run.1.

Definition codes (c : CheckoutResponse) : list string :=
  msg_code <$> default [] (co_messages c).

(** ** The specification's formulations *)

(** Rounding of the fraction [num/den] ([den > 0]) to the nearest integer,
    halves upwards. *)
Definition round_half_up (num den : Z) : Z := (2 * num + den) / (2 * den).

(** 8.75% of an amount, rounded half-up. *)
Definition tax_of (amount : Z) : Z := round_half_up (amount * 875) 10000.


(** The sum of the total prices of a list of line items. *)
Definition sum_total_price (items : list LineItemResponse) : Z :=
  foldr (fun item acc => li_total_price item + acc) 0 items.

(** A line item that costs [amount] in all. *)
Definition line_of (amount : Z) : LineItemResponse :=
  {| li_id := "line-1";
     li_item := {| item_id := "item"; item_name := "Item"; item_description := "";
                   item_image_url := None |};
     li_quantity := 1; li_unit_price := amount; li_total_price := amount |}.

(** Nine rose bouquets and eleven tulip arrangements, no payment yet. *)
Definition bouquets_run : Response * Store :=
  post_checkout_sessions flower_shop demo_uuid 0
    (create_with [request "rose-bouquet" 9; request "tulip-arrangement" 11] None)
    empty_store.

(** An update that offers instruments and selects none. *)
Definition offer_instruments : CheckoutUpdateRequest :=
  {| update_line_items := None;
     update_payment :=
       Some {| preq_selected_instrument_id := None;
               preq_instruments :=
                 Some [ {| instrument_id := "card-1";
                           instrument_handler_id := "card-handler";
                           instrument_type := "card";
                           instrument_display_name := None |} ] |};
     update_buyer := None |}.





(** The terminal statuses. *)
Definition terminal (s : CheckoutStatus) : Prop := s = completed ∨ s = canceled.

(** What the resolver does with one request. *)
Inductive Outcome :=
| skipped (error : string)
| emitted (p : Product) (quantity : Z).

Definition outcome (products : gmap string Product) (currency : string)
    (req : LineItemRequest) : Outcome :=
  match products !! req_item_id req with
  | None => skipped ("Product not found: " +:+ req_item_id req)
  | Some p =>
      if product_in_stock p then
        if bool_decide (product_currency p = currency) then emitted p (req_quantity req)
        else skipped ("Currency mismatch for " +:+ product_name p +:+
                      ": expected " +:+ currency +:+ ", got " +:+ product_currency p)
      else skipped ("Product out of stock: " +:+ product_name p)
  end.

Definition error_of (o : Outcome) : option string :=
  match o with skipped e => Some e | emitted _ _ => None end.

(** The priced part of the line item emitted for a request: product
    snapshot, quantity, unit price and total price. *)
Definition priced_of (o : Outcome) : option (ItemSnapshot * Z * Z * Z) :=
  match o with
  | skipped _ => None
  | emitted p q =>
      Some ({| item_id := product_id p; item_name := product_name p;
               item_description := product_description p;
               item_image_url := product_image_url p |},
            q, product_price p, product_price p * q)
  end.

Definition priced (it : LineItemResponse) : ItemSnapshot * Z * Z * Z :=
  (li_item it, li_quantity it, li_unit_price it, li_total_price it).

(** ** Further definitions: orders, well-formed stores, the tax on a range *)

(** [orders.get(id)] ([getOrder] of [src/data.ts]) *)
Definition getOrder (id : string) (st : Store) : option Order := orders st !! id.

(** Every key of the map of sessions refers to a live object whose [id] is
    that key: what [saveCheckout], which files an object under its own
    [id], maintains. *)
Definition store_wf (st : Store) : Prop :=
  ∀ id l, checkoutSessions st !! id = Some l →
          ∃ c, heap st !! l = Some c ∧ co_id c = id.

(** The status of the session stored under [id], if any. *)
Definition status_at (id : string) (st : Store) : option CheckoutStatus :=
  (fun lc => co_status lc.2) <$> getCheckout id st.




(** The order Complete files for a session, from the identifier drawn and
    the two readings of the clock. *)
Definition order_for (uuid : string) (now now' : Z) (c : CheckoutResponse) : Order :=
  {| order_id := "ORD-" +:+ JS.toUpperCase (JS.slice0 8 uuid);
     order_checkout_id := co_id c;
     order_status := order_pending;
     order_line_items := co_line_items c;
     order_totals := co_totals c;
     order_buyer := co_buyer c;
     order_created_at := now;
     order_updated_at := now' |}.

(** An update that only selects an instrument, and one that replaces the
    line items by none. *)
Definition select_instrument (instrument : string) : CheckoutUpdateRequest :=
  {| update_line_items := None;
     update_payment := Some {| preq_selected_instrument_id := Some instrument;
                               preq_instruments := None |};
     update_buyer := None |}.

Definition empty_cart : CheckoutUpdateRequest :=
  {| update_line_items := Some []; update_payment := None; update_buyer := None |}.

(** What a handler called for the session [id] may do to the stores: draw
    identifiers, file orders, and assign to the object found under [id]
    (keeping its [id]) and save it. *)
Inductive touches (id : string) (st : Store) : Store → Prop :=
| touches_nothing : touches id st st
| touches_drawn n st1 : touches id st st1 → touches id st (set_drawn n st1)
| touches_order o st1 : touches id st st1 → touches id st (saveOrder o st1)
| touches_session l c c' st1 :
    touches id st st1 →
    getCheckout id st1 = Some (l, c) →
    co_id c' = co_id c →
    touches id st (saveCheckout l c' (assign l c' st1)).

(** The rose-bouquet session, canceled. *)
Definition canceled_run : Response * Store := post_cancel ready_id ready_run.2.
Definition canceled_session : CheckoutResponse := session_of canceled_run.1.

(** A source of identifiers that never repeats: the decimal numerals. *)
Definition numbered_uuid (n : nat) : string := pretty n.

(** Three requests: a rose bouquet, an unknown product, a product out of
    stock. *)
Definition mixed_requests : list LineItemRequest :=
  [request "rose-bouquet" 2; request "peony" 1; request "mixed-wildflowers" 1].

(** ** The edge worker ([worker/src/index.js])

    The worker is a second implementation of the same API, over the same
    request shapes.  Its sessions have no links and no [continue_url], its
    capabilities carry no version, its messages no code, and its orders only
    an id, the checkout id, a status and a creation time. *)

Module Worker.

Record Message := {
  msg_type : MessageType;
  msg_message : string
}.

Record Checkout := {
  ucp_version : string;
  ucp_capabilities : list string;
  id : string;
  status : CheckoutStatus;
  line_items : list LineItemResponse;
  currency : string;
  totals : Totals;
  payment : PaymentResponse;
  buyer : option Buyer;
  messages : option (list Message);
  expires_at : Z;
  order : option OrderConfirmation
}.

Record Order := {
  order_id : string;
  order_checkout_id : string;
  order_status : OrderStatus;
  order_created_at : Z
}.

Inductive Body :=
| body_error (error : string)
| body_checkout (checkout : Checkout).

Record Response := {
  res_body : Body;
  res_status : Z
}.

(** [jsonResponse(data, status = 200)] *)
Definition jsonResponse (b : Body) (status : Z) : Response :=
  {| res_body := b; res_status := status |}.

(** The session objects, the references kept by the [checkoutSessions] map,
    the [orders] map, and the number of identifiers drawn. *)
Record Store := {
  heap : list Checkout;
  checkoutSessions : gmap string nat;
  orders : gmap string Order;
  drawn : nat
}.

Definition set_status (v : CheckoutStatus) (c : Checkout) : Checkout :=
  {| ucp_version := ucp_version c; ucp_capabilities := ucp_capabilities c; id := id c;
     status := v; line_items := line_items c; currency := currency c;
     totals := totals c; payment := payment c; buyer := buyer c;
     messages := messages c; expires_at := expires_at c; order := order c |}.

Definition set_line_items (v : list LineItemResponse) (c : Checkout) : Checkout :=
  {| ucp_version := ucp_version c; ucp_capabilities := ucp_capabilities c; id := id c;
     status := status c; line_items := v; currency := currency c;
     totals := totals c; payment := payment c; buyer := buyer c;
     messages := messages c; expires_at := expires_at c; order := order c |}.

Definition set_totals (v : Totals) (c : Checkout) : Checkout :=
  {| ucp_version := ucp_version c; ucp_capabilities := ucp_capabilities c; id := id c;
     status := status c; line_items := line_items c; currency := currency c;
     totals := v; payment := payment c; buyer := buyer c;
     messages := messages c; expires_at := expires_at c; order := order c |}.

Definition set_payment (v : PaymentResponse) (c : Checkout) : Checkout :=
  {| ucp_version := ucp_version c; ucp_capabilities := ucp_capabilities c; id := id c;
     status := status c; line_items := line_items c; currency := currency c;
     totals := totals c; payment := v; buyer := buyer c;
     messages := messages c; expires_at := expires_at c; order := order c |}.

Definition set_buyer (v : option Buyer) (c : Checkout) : Checkout :=
  {| ucp_version := ucp_version c; ucp_capabilities := ucp_capabilities c; id := id c;
     status := status c; line_items := line_items c; currency := currency c;
     totals := totals c; payment := payment c; buyer := v;
     messages := messages c; expires_at := expires_at c; order := order c |}.

Definition set_order (v : option OrderConfirmation) (c : Checkout) : Checkout :=
  {| ucp_version := ucp_version c; ucp_capabilities := ucp_capabilities c; id := id c;
     status := status c; line_items := line_items c; currency := currency c;
     totals := totals c; payment := payment c; buyer := buyer c;
     messages := messages c; expires_at := expires_at c; order := v |}.


(** [checkout.payment.status = v] *)
Definition set_payment_status (v : PaymentStatus) (c : Checkout) : Checkout :=
  set_payment {| pay_selected_instrument_id := pay_selected_instrument_id (payment c);
                 pay_instruments := pay_instruments (payment c);
                 pay_status := v |} c.

(** [checkoutSessions.get(id)]: the reference and the object. *)
Definition get (key : string) (st : Store) : option (nat * Checkout) :=
  match checkoutSessions st !! key with
  | Some l => match heap st !! l with
              | Some c => Some (l, c)
              | None => None
              end
  | None => None
  end.

(** The object at reference [l] now has the fields of [c]. *)
Definition assign (l : nat) (c : Checkout) (st : Store) : Store :=
  {| heap := <[l := c]> (heap st); checkoutSessions := checkoutSessions st;
     orders := orders st; drawn := drawn st |}.

(** [checkoutSessions.set(key, checkout)] for the object at [l]. *)
Definition set (key : string) (l : nat) (st : Store) : Store :=
  {| heap := heap st; checkoutSessions := <[key := l]> (checkoutSessions st);
     orders := orders st; drawn := drawn st |}.

Definition set_drawn (n : nat) (st : Store) : Store :=
  {| heap := heap st; checkoutSessions := checkoutSessions st;
     orders := orders st; drawn := n |}.

Section Handlers.

(** The catalog, an array, and the source of [crypto.randomUUID()]. *)
Variable products : list Product.
Variable generateId : nat -> string.

(** [products.find(p => p.id === id)] *)
Definition getProduct (key : string) : option Product :=
  List.find (fun p => bool_decide (product_id p = key)) products.

Definition resolve_step (currency : string)
    (acc : list LineItemResponse * list string * nat) (req : LineItemRequest)
    : list LineItemResponse * list string * nat :=
  let '(items, errors, n) := acc in
  match getProduct (req_item_id req) with
  | None =>
      (items, errors ++ ["Product not found: " +:+ req_item_id req], n)
  | Some product =>
      if negb (product_in_stock product) then
        (items, errors ++ ["Product out of stock: " +:+ product_name product], n)
      else
        (items ++ [{| li_id := generateId n;
                      li_item := {| item_id := product_id product;
                                    item_name := product_name product;
                                    item_description := product_description product;
                                    item_image_url := product_image_url product |};
                      li_quantity := req_quantity req;
                      li_unit_price := product_price product;
                      li_total_price := product_price product * req_quantity req |}],
         errors, S n)
  end.

Definition resolveLineItems (requests : list LineItemRequest) (currency : string)
    (n : nat) : list LineItemResponse * list string * nat :=
  fold_left (resolve_step currency) requests ([], [], n).

Definition calculateTotals (lineItems : list LineItemResponse) : Totals :=
  let subtotal := fold_left (fun sum item => sum + li_total_price item) lineItems 0 in
  let tax := JS.Math_round (JS.mul (JS.number subtotal) TAX_RATE) in
  let shipping := if 5000 <=? subtotal then 0 else 599 in
  {| subtotal := subtotal;
     tax := tax;
     shipping := shipping;
     discount := 0;
     total := subtotal + tax + shipping |}.

Definition instruments : list PaymentInstrument :=
  [ {| instrument_id := "inst-mock"; instrument_handler_id := "mock-payment-handler";
       instrument_type := "token"; instrument_display_name := Some "Test Payment" |};
    {| instrument_id := "inst-card"; instrument_handler_id := "card-handler";
       instrument_type := "card"; instrument_display_name := Some "Credit Card" |} ].

(** [body.currency || "USD"] *)
Definition currency_or_usd (c : option string) : string :=
  if JS.truthy c then default "" c else "USD".

(** [items.length > 0 && checkout.payment.selected_instrument_id] *)
Definition ready (c : Checkout) : bool :=
  (0 <? length (line_items c))%nat
  && JS.truthy (pay_selected_instrument_id (payment c)).

Definition handleCreateCheckout (now : Z) (body : CheckoutCreateRequest) (st : Store)
    : Response * Store :=
  match create_line_items body with
  | None | Some [] => (jsonResponse (body_error "line_items is required") 400, st)
  | Some requests =>
      let '(items, errors, n) :=
        resolveLineItems requests (currency_or_usd (create_currency body)) (drawn st) in
      let checkout :=
        {| ucp_version := "2026-01-11";
           ucp_capabilities := ["dev.ucp.shopping.checkout"];
           id := generateId n;
           status := if (0 <? length items)%nat then incomplete else incomplete;
           line_items := items;
           currency := currency_or_usd (create_currency body);
           totals := calculateTotals items;
           payment :=
             {| pay_selected_instrument_id :=
                  create_payment body ≫= preq_selected_instrument_id;
                pay_instruments := instruments;
                pay_status := pending |};
           buyer := create_buyer body;
           messages :=
             if (0 <? length errors)%nat
             then Some ((fun e => {| msg_type := error; msg_message := e |}) <$> errors)
             else None;
           expires_at := now + 6 * 60 * 60 * 1000;
           order := None |} in
      let checkout :=
        if ready checkout then set_status ready_for_complete checkout else checkout in
      let l := length (heap st) in
      let st := {| heap := heap st ++ [checkout];
                   checkoutSessions := checkoutSessions st;
                   orders := orders st;
                   drawn := S n |} in
      (jsonResponse (body_checkout checkout) 201, set (id checkout) l st)
  end.

Definition handleGetCheckout (key : string) (st : Store) : Response * Store :=
  match get key st with
  | None => (jsonResponse (body_error "Checkout not found") 404, st)
  | Some (_, checkout) => (jsonResponse (body_checkout checkout) 200, st)
  end.


Definition handleCompleteCheckout (now : Z) (key : string) (body : PaymentData)
    (st : Store) : Response * Store :=
  match get key st with
  | None => (jsonResponse (body_error "Checkout not found") 404, st)
  | Some (l, checkout) =>
      if negb (bool_decide (status checkout = ready_for_complete)) then
        (jsonResponse (body_error "Checkout not ready") 400, st)
      else if bool_decide ((payment_data body ≫= pd_token) = Some "fail_token") then
        let checkout := set_payment_status failed checkout in
        (jsonResponse (body_checkout checkout) 400, assign l checkout st)
      else
        let o :=
          {| order_id := "ORD-" +:+ JS.toUpperCase (JS.slice0 8 (generateId (drawn st)));
             order_checkout_id := key;
             order_status := order_pending;
             order_created_at := now |} in
        let st := {| heap := heap st; checkoutSessions := checkoutSessions st;
                     orders := <[order_id o := o]> (orders st);
                     drawn := S (drawn st) |} in
        let checkout := set_status completed checkout in
        let checkout := set_payment_status captured checkout in
        let checkout :=
          set_order (Some {| oc_id := order_id o; oc_created_at := order_created_at o |})
                    checkout in
        (jsonResponse (body_checkout checkout) 200, set key l (assign l checkout st))
  end.

End Handlers.

End Worker.

(** The catalog of the worker. *)
Definition gadget_catalog : list Product :=
  [ {| product_id := "ai-voice-assistant"; product_name := "AI Voice Assistant";
       product_description := "Smart speaker with advanced voice AI and multi-room audio";
       product_price := 8999; product_currency := "USD";
       product_image_url :=
         Some "https://images.unsplash.com/photo-1543512214-318c7553f230?w=200&h=200&fit=crop";
       product_in_stock := true |};
    {| product_id := "neural-earbuds"; product_name := "Neural Earbuds Pro";
       product_description :=
         "Wireless earbuds with real-time AI translation in 40+ languages";
       product_price := 14999; product_currency := "USD";
       product_image_url :=
         Some "https://images.unsplash.com/photo-1590658268037-6bf12165a8df?w=200&h=200&fit=crop";
       product_in_stock := true |};
    {| product_id := "smart-glasses"; product_name := "AI Smart Glasses";
       product_description :=
         "AR glasses with integrated AI assistant and heads-up display";
       product_price := 29999; product_currency := "USD";
       product_image_url :=
         Some "https://images.unsplash.com/photo-1574944985070-8f3ebc6b79d2?w=200&h=200&fit=crop";
       product_in_stock := true |};
    {| product_id := "robot-companion"; product_name := "Robot Companion";
       product_description :=
         "Desktop AI robot for productivity, scheduling, and companionship";
       product_price := 19999; product_currency := "USD";
       product_image_url :=
         Some "https://images.unsplash.com/photo-1485827404703-89b55fcc595e?w=200&h=200&fit=crop";
       product_in_stock := true |};
    {| product_id := "brain-band"; product_name := "Brain Band";
       product_description :=
         "EEG headband for AI-powered focus, meditation, and sleep tracking";
       product_price := 12999; product_currency := "USD";
       product_image_url :=
         Some "https://images.unsplash.com/photo-1589254065878-42c9da997008?w=200&h=200&fit=crop";
       product_in_stock := false |} ].

(** A catalog array as the map from product id to product; of two entries
    with one id the first counts, as for [find]. *)
Definition catalog_map (products : list Product) : gmap string Product :=
  list_to_map ((fun p => (product_id p, p)) <$> products).

Definition worker_empty : Worker.Store :=
  {| Worker.heap := []; Worker.checkoutSessions := ∅; Worker.orders := ∅;
     Worker.drawn := 0%nat |}.

(** A worker session for one voice assistant with [inst-mock] selected. *)
Definition worker_ready_run : Worker.Response * Worker.Store :=
  Worker.handleCreateCheckout gadget_catalog demo_uuid 0
    {| create_line_items := Some [request "ai-voice-assistant" 1];
       create_currency := None;
       create_payment := Some {| preq_selected_instrument_id := Some "inst-mock";
                                 preq_instruments := None |};
       create_buyer := None |}
    worker_empty.

(** ** Properties of the stores *)

Section StoreFacts.

Implicit Types (st : Store) (c : CheckoutResponse) (l : nat) (id : string).

Lemma getCheckout_Some id st l c :
  getCheckout id st = Some (l, c) ↔
  checkoutSessions st !! id = Some l ∧ heap st !! l = Some c.
Proof.
  unfold getCheckout. split.
  - destruct (checkoutSessions st !! id) as [l'|]; [|done].
    destruct (heap st !! l') as [c'|] eqn:Hh; [|done].
    intros [= <- <-]. done.
  - intros [-> ->]. done.
Qed.

(** After an assignment to the object and [saveCheckout], the session is
    found under the same key, with its new fields. *)
Lemma getCheckout_written id st l c c' :
  getCheckout id st = Some (l, c) →
  getCheckout id (saveCheckout l c' (assign l c' st)) = Some (l, c').
Proof.
  intros [Hs Hh]%getCheckout_Some. apply getCheckout_Some. simpl. split.
  - destruct (decide (co_id c' = id)) as [->|Hne].
    + apply lookup_insert_eq.
    + by rewrite lookup_insert_ne.
  - apply list_lookup_insert_eq. by eapply lookup_lt_Some.
Qed.

Lemma journal_written l c st :
  journal (saveCheckout l c (assign l c st)) = journal st ++ [saved_checkout c].
Proof. done. Qed.

Lemma orders_written l c st :
  orders (saveCheckout l c (assign l c st)) = orders st.
Proof. done. Qed.

End StoreFacts.

(** ** Terminal sessions under Update, Complete and Cancel *)

Section Terminal.

Variable products : gmap string Product.
Variable uuidv4 : nat -> string.

Implicit Types (st : Store) (c : CheckoutResponse) (l : nat) (id : string).

Lemma put_terminal now id body st l c :
  getCheckout id st = Some (l, c) → terminal (co_status c) →
  put_checkout_session products uuidv4 now id body st =
    (json (body_error ("Cannot update " +:+ status_name (co_status c) +:+ " checkout")) 400,
     st).
Proof.
  intros Hg Ht. unfold put_checkout_session. rewrite Hg.
  destruct Ht as [-> | ->]; done.
Qed.

Lemma post_complete_completed now now' id body st l c :
  getCheckout id st = Some (l, c) → co_status c = completed →
  post_complete uuidv4 now now' id body st =
    (json (body_error "Checkout already completed") 400, st).
Proof.
  intros Hg Hs. unfold post_complete. rewrite Hg, Hs. done.
Qed.

Lemma post_complete_canceled now now' id body st l c :
  getCheckout id st = Some (l, c) → co_status c = canceled →
  post_complete uuidv4 now now' id body st =
    (json (body_error "Cannot complete canceled checkout") 400, st).
Proof.
  intros Hg Hs. unfold post_complete. rewrite Hg, Hs. done.
Qed.

Lemma post_cancel_completed id st l c :
  getCheckout id st = Some (l, c) → co_status c = completed →
  post_cancel id st = (json (body_error "Cannot cancel completed checkout") 400, st).
Proof.
  intros Hg Hs. unfold post_cancel. rewrite Hg, Hs. done.
Qed.

Lemma post_cancel_canceled id st l c :
  getCheckout id st = Some (l, c) → co_status c = canceled →
  post_cancel id st = (json (body_checkout c) 200, st).
Proof.
  intros Hg Hs. unfold post_cancel. rewrite Hg, Hs. done.
Qed.

(** Get leaves alone a session that has not expired. *)
Lemma get_unexpired now id st l c :
  getCheckout id st = Some (l, c) → now <= co_expires_at c →
  get_checkout_session now id st = (json (body_checkout c) 200, st).
Proof.
  intros Hg Hle. unfold get_checkout_session. rewrite Hg.
  destruct (Z.ltb_spec (co_expires_at c) now); [lia | done].
Qed.

(** Get on an expired session, whatever its status: it becomes [canceled],
    an [EXPIRED] message is appended, and the change is stored. *)
Lemma get_expired now id st l c :
  getCheckout id st = Some (l, c) → co_expires_at c < now →
  let c' := set_messages (Some (default [] (co_messages c) ++ [expired_message]))
                         (set_status canceled c) in
  let st' := saveCheckout l c' (assign l c' st) in
  get_checkout_session now id st = (json (body_checkout c') 200, st') ∧
  getCheckout id st' = Some (l, c').
Proof.
  intros Hg Hlt. simpl. split.
  - unfold get_checkout_session. rewrite Hg.
    destruct (Z.ltb_spec (co_expires_at c) now); [done | lia].
  - by eapply getCheckout_written.
Qed.

End Terminal.

(** ** Complete and Cancel *)

Section CompleteCancel.

Variable uuidv4 : nat -> string.

Implicit Types (st : Store) (c : CheckoutResponse) (l : nat) (id : string).

(** C6. Complete on a session whose status is [completed] answers 400
    with the error "Checkout already completed", and hands back the stores
    as they were: no order is created, no journal entry is written and no
    field of the session changes; so does every further call. *)
Theorem C6_complete_on_completed now now' id body st l c :
  getCheckout id st = Some (l, c) →
  co_status c = completed →
  let r := post_complete uuidv4 now now' id body st in
  r = (json (body_error "Checkout already completed") 400, st) ∧
  orders r.2 = orders st ∧
  getCheckout id r.2 = Some (l, c) ∧
  ∀ t t' body', post_complete uuidv4 t t' id body' r.2 = (r.1, st).
Proof.
  intros Hg Hs r. subst r.
  rewrite (post_complete_completed uuidv4 now now' id body st l c Hg Hs).
  simpl. repeat split; try done.
  intros t t' body'. by eapply post_complete_completed.
Qed.


End CompleteCancel.

(** C6 at the completed rose-bouquet session. *)
Lemma C6_complete_on_completed_witness :
  post_complete demo_uuid 2000 2000 ready_id
    (pay_with (Some "mock-payment-handler") (Some "success_token")) completed_run.2
  = (json (body_error "Checkout already completed") 400, completed_run.2).
Proof.
  refine (proj1 (C6_complete_on_completed demo_uuid 2000 2000 ready_id _
                   completed_run.2 0%nat completed_session _ _));
    vm_compute; reflexivity.
Defined.


(** Evaluation of the service on a concrete run, conjunct by conjunct. *)
Ltac conjuncts :=
  repeat match goal with
         | |- _ ∧ _ => split
         | |- let _ := _ in _ => intro
         end.

Ltac run :=
  conjuncts;
  match goal with
  | |- _ ≠ _ => vm_compute; discriminate
  | |- _ => vm_compute; reflexivity
  end.

(** ** Expiry on Get *)

(** C1. A stored [completed] session does not stay as it is under Get: the
    rose-bouquet session, completed at time 1000, is read after its expiry
    time; the session returned and stored has status [canceled] and an
    [EXPIRED] message, and differs from the completed one. *)
Theorem C1_get_rewrites_completed_session :
  getCheckout ready_id completed_run.2 = Some (0%nat, completed_session) ∧
  co_status completed_session = completed ∧
  co_messages completed_session = None ∧
  let r := get_checkout_session after_expiry ready_id completed_run.2 in
  res_status r.1 = 200 ∧
  co_status (session_of r.1) = canceled ∧
  codes (session_of r.1) = ["EXPIRED"] ∧
  getCheckout ready_id r.2 = Some (0%nat, session_of r.1) ∧
  session_of r.1 ≠ completed_session.
Proof. run. Qed.

(** C2. The first Get after the expiry time cancels the session, appends one
    [EXPIRED] message and stores the result; the next Get appends a second
    [EXPIRED] message to the stored session. *)
Theorem C2_second_get_appends_expired_again :
  getCheckout ready_id ready_run.2 = Some (0%nat, ready_session) ∧
  co_status ready_session = ready_for_complete ∧
  co_messages ready_session = None ∧
  let r1 := get_checkout_session after_expiry ready_id ready_run.2 in
  let r2 := get_checkout_session (after_expiry + 1) ready_id r1.2 in
  co_status (session_of r1.1) = canceled ∧
  codes (session_of r1.1) = ["EXPIRED"] ∧
  getCheckout ready_id r1.2 = Some (0%nat, session_of r1.1) ∧
  co_status (session_of r2.1) = canceled ∧
  codes (session_of r2.1) = ["EXPIRED"; "EXPIRED"] ∧
  getCheckout ready_id r2.2 = Some (0%nat, session_of r2.1).
Proof. run. Qed.

(** ** Failed settlement *)

Section Settlement.

Variable uuidv4 : nat -> string.

Implicit Types (st : Store) (c : CheckoutResponse) (l : nat) (id : string).

(** C5, amended. Complete on a [ready_for_complete] session, with payment
    data that carries a non-empty handler id and the token [fail_token]:
    the session is saved with status [complete_in_progress], then saved
    again with status [ready_for_complete], payment status [failed] and the
    single message [PAYMENT_FAILED]; the answer is that session with status
    400, and the orders are as before. *)
Theorem C5_failed_settlement now now' id body data st l c :
  getCheckout id st = Some (l, c) →
  co_status c = ready_for_complete →
  payment_data body = Some data →
  JS.truthy (pd_handler_id data) = true →
  pd_token data = Some "fail_token" →
  ∃ c1 c2 st',
    post_complete uuidv4 now now' id body st = (json (body_checkout c2) 400, st') ∧
    journal st' = journal st ++ [saved_checkout c1; saved_checkout c2] ∧
    c1 = set_status complete_in_progress c ∧
    c2 = set_messages (Some [payment_failed_message])
           (set_payment_status failed (set_status ready_for_complete c)) ∧
    co_status c1 = complete_in_progress ∧
    co_status c2 = ready_for_complete ∧
    pay_status (co_payment c2) = failed ∧
    codes c2 = ["PAYMENT_FAILED"] ∧
    getCheckout id st' = Some (l, c2) ∧
    orders st' = orders st.
Proof.
  intros Hg Hs Hd Hh Ht.
  eexists _, _, _. split.
  { unfold post_complete. rewrite Hg, Hs, Hd, Hh, Ht. simpl. reflexivity. }
  split. { simpl. by rewrite <- app_assoc. }
  split; [reflexivity|].
  split; [reflexivity|].
  split; [reflexivity|].
  split; [reflexivity|].
  split; [reflexivity|].
  split; [reflexivity|].
  split; [|reflexivity].
  eapply getCheckout_written. by eapply getCheckout_written.
Qed.

End Settlement.

(** C5 as stated fails without a handler id: on the [ready_for_complete]
    rose-bouquet session, Complete with the token [fail_token] and no
    handler id answers 400 "payment_data.handler_id is required"; nothing is
    saved and the payment status stays [pending]. *)
Lemma C5_fail_token_without_handler :
  getCheckout ready_id ready_run.2 = Some (0%nat, ready_session) ∧
  co_status ready_session = ready_for_complete ∧
  let body := pay_with None (Some "fail_token") in
  let r := post_complete demo_uuid 1000 1000 ready_id body ready_run.2 in
  (payment_data body ≫= pd_token) = Some "fail_token" ∧
  r = (json (body_error "payment_data.handler_id is required") 400, ready_run.2) ∧
  journal r.2 = journal ready_run.2 ∧
  (snd <$> getCheckout ready_id r.2) = Some ready_session ∧
  pay_status (co_payment ready_session) = pending ∧
  pay_status (co_payment ready_session) ≠ failed ∧
  co_messages ready_session = None.
Proof. run. Qed.

(** C5 at the rose-bouquet session. *)
Lemma C5_failed_settlement_witness :
  ∃ c2 st',
    post_complete demo_uuid 1000 1000 ready_id
      (pay_with (Some "mock-payment-handler") (Some "fail_token")) ready_run.2
    = (json (body_checkout c2) 400, st') ∧
    co_status c2 = ready_for_complete ∧
    pay_status (co_payment c2) = failed ∧
    orders st' = orders ready_run.2.
Proof.
  destruct (C5_failed_settlement demo_uuid 1000 1000 ready_id
              (pay_with (Some "mock-payment-handler") (Some "fail_token"))
              {| pd_handler_id := Some "mock-payment-handler";
                 pd_token := Some "fail_token" |}
              ready_run.2 0%nat ready_session)
    as (c1 & c2 & st' & H & _ & _ & _ & _ & Hs & Hp & _ & _ & Ho);
    try (vm_compute; reflexivity).
  exists c2, st'. auto.
Defined.

(** ** The line-item resolver *)

Section Resolver.

Variable products : gmap string Product.
Variable uuidv4 : nat -> string.

Implicit Types (req : LineItemRequest) (requests : list LineItemRequest)
  (items : list LineItemResponse) (errors : list string) (n : nat).

(** One turn of the loop, by the outcome of its request. *)
Lemma resolve_step_outcome currency items errors n req :
  resolve_step products uuidv4 currency (items, errors, n) req =
  match outcome products currency req with
  | skipped e => (items, errors ++ [e], n)
  | emitted p q =>
      (items ++ [{| li_id := uuidv4 n;
                    li_item := {| item_id := product_id p;
                                  item_name := product_name p;
                                  item_description := product_description p;
                                  item_image_url := product_image_url p |};
                    li_quantity := q;
                    li_unit_price := product_price p;
                    li_total_price := product_price p * q |}],
       errors, S n)
  end.
Proof.
  unfold resolve_step, outcome, getProduct.
  destruct (products !! req_item_id req) as [p|]; [|done].
  destruct (product_in_stock p); [|done]. simpl.
  by destruct (bool_decide (product_currency p = currency)).
Qed.

(** The loop started from any accumulators. *)
Lemma resolve_loop currency requests items errors n :
  let r := fold_left (resolve_step products uuidv4 currency) requests (items, errors, n) in
  let outcomes := outcome products currency <$> requests in
  let k := length (omap priced_of outcomes) in
  r.1.2 = errors ++ omap error_of outcomes ∧
  priced <$> r.1.1 = (priced <$> items) ++ omap priced_of outcomes ∧
  li_id <$> r.1.1 = (li_id <$> items) ++ (uuidv4 <$> seq n k) ∧
  r.2 = (n + k)%nat.
Proof.
  revert items errors n.
  induction requests as [|req requests IH]; intros items errors n.
  - simpl. rewrite !app_nil_r, Nat.add_0_r. done.
  - cbn [fold_left fmap list_fmap].
    rewrite resolve_step_outcome.
    destruct (outcome products currency req) as [e|p q].
    + specialize (IH items (errors ++ [e]) n). cbn zeta in IH.
      destruct IH as (He & Hp & Hi & Hn).
      cbn [omap list_omap error_of priced_of]. cbn zeta.
      rewrite He, Hp, Hi, Hn, <- app_assoc. done.
    + match goal with
      | |- context [fold_left _ _ (items ++ [?it], _, _)] =>
          specialize (IH (items ++ [it]) errors (S n))
      end.
      cbn zeta in IH. destruct IH as (He & Hp & Hi & Hn).
      cbn [omap list_omap error_of priced_of]. cbn zeta.
      rewrite He, Hp, Hi, Hn, !fmap_app, <- !app_assoc.
      cbn [length seq fmap list_fmap app priced li_item li_quantity
           li_unit_price li_total_price li_id].
      rewrite Nat.add_succ_r. done.
Qed.


End Resolver.

(** ** The totals calculator *)

Section Totals.

Lemma fold_total_price items acc :
  fold_left (fun sum item => sum + li_total_price item) items acc =
  acc + sum_total_price items.
Proof.
  revert acc. induction items as [|it items IH]; intros acc; simpl.
  - lia.
  - rewrite IH. unfold sum_total_price. simpl. lia.
Qed.

(** All of the totals but the rounding of the tax: the subtotal is the sum
    of the total prices, the tax is [Math.round] of the double product of
    the subtotal and [TAX_RATE], shipping is free from 5000 on and 599
    below, the discount is 0 and the total adds up. *)
Lemma calculateTotals_fields items :
  let t := calculateTotals items in
  subtotal t = sum_total_price items ∧
  tax t = JS.Math_round (JS.mul (JS.number (subtotal t)) TAX_RATE) ∧
  shipping t = (if decide (5000 <= subtotal t) then 0 else 599) ∧
  discount t = 0 ∧
  total t = subtotal t + tax t + shipping t - discount t.
Proof.
  unfold calculateTotals. simpl. rewrite fold_total_price, Z.add_0_l.
  repeat split.
  destruct (Z.leb_spec 5000 (sum_total_price items)), (decide (5000 <= sum_total_price items));
    done || lia.
Qed.

Lemma calculateTotals_nil :
  calculateTotals [] =
  {| subtotal := 0; tax := 0; shipping := 599; discount := 0; total := 599 |}.
Proof. reflexivity. Qed.

(** [TAX_RATE] is the double nearest to 875/10000. *)
Lemma TAX_RATE_nearest :
  SFdiv JS.prec JS.emax (JS.number 875) (JS.number 10000) = TAX_RATE.
Proof. vm_compute. reflexivity. Qed.

End Totals.

(** C4. The tax of the program is not always 8.75% rounded half-up.  For a
    subtotal of 360 the double product [360 * 0.0875] is 31.5 - 2^-48, and
    [Math.round] gives 31 where 31.50 rounds half-up to 32; the session
    created for nine rose bouquets and eleven tulip arrangements has
    subtotal 83480 and tax 7304 where 7304.50 rounds half-up to 7305. *)
Theorem C4_tax_misses_half_up :
  JS.mul (JS.number 360) TAX_RATE = S754_finite false (63 * 2 ^ 47 - 1) (-48) ∧
  calculateTotals [line_of 360] =
    {| subtotal := 360; tax := 31; shipping := 599; discount := 0; total := 990 |} ∧
  tax_of 360 = 32 ∧
  res_status bouquets_run.1 = 201 ∧
  co_totals (session_of bouquets_run.1) =
    {| subtotal := 83480; tax := 7304; shipping := 0; discount := 0; total := 90784 |} ∧
  tax_of 83480 = 7305.
Proof. run. Qed.

(** ** Update *)

Section Update.

Variable products : gmap string Product.
Variable uuidv4 : nat -> string.

Implicit Types (st : Store) (c : CheckoutResponse) (l : nat) (id : string).


(** Update on a session that is not terminal, field group by field group:
    [c1] is the session after the three optional replacements, before the
    status and the expiry time are set. *)
Lemma put_nonterminal now id body st l c :
  getCheckout id st = Some (l, c) →
  ¬ terminal (co_status c) →
  ∃ c1 c' st',
    put_checkout_session products uuidv4 now id body st =
      (json (body_checkout c') 200, st') ∧
    c' = set_expires_at (getExpiresAt now) (set_status (determineStatus c1) c1) ∧
    getCheckout id st' = Some (l, c') ∧
    match update_line_items body with
    | Some requests =>
        let r := resolveLineItems products uuidv4 requests (co_currency c) (drawn st) in
        co_line_items c1 = r.1.1 ∧
        co_totals c1 = calculateTotals r.1.1 ∧
        co_messages c1 = (if (0 <? length r.1.2)%nat
                          then Some (item_error <$> r.1.2) else co_messages c)
    | None =>
        co_line_items c1 = co_line_items c ∧
        co_totals c1 = co_totals c ∧
        co_messages c1 = co_messages c
    end ∧
    match update_payment body with
    | Some p =>
        co_payment c1 =
          {| pay_selected_instrument_id := preq_selected_instrument_id p;
             pay_instruments :=
               default (pay_instruments (co_payment c)) (preq_instruments p);
             pay_status := pay_status (co_payment c) |}
    | None => co_payment c1 = co_payment c
    end ∧
    match update_buyer body with
    | Some b => co_buyer c1 = Some b
    | None => co_buyer c1 = co_buyer c
    end ∧
    co_id c1 = co_id c ∧ co_currency c1 = co_currency c ∧ co_order c1 = co_order c.
Proof.
  intros Hg Hnt.
  assert (Hc : co_status c ≠ completed) by (intros H; apply Hnt; by left).
  assert (Hx : co_status c ≠ canceled) by (intros H; apply Hnt; by right).
  unfold put_checkout_session. rewrite Hg.
  rewrite !bool_decide_eq_false_2 by done. cbn [orb].
  destruct (update_line_items body) as [requests|].
  - destruct (resolveLineItems products uuidv4 requests (co_currency c) (drawn st))
      as [[items errors] n] eqn:Hr.
    cbn [fst snd].
    destruct (0 <? length errors)%nat;
      destruct (update_payment body) as [p|];
      destruct (update_buyer body) as [b|];
      (eexists _, _, _; split; [reflexivity|]; split; [reflexivity|];
       split; [eapply getCheckout_written;
               apply getCheckout_Some; apply getCheckout_Some in Hg; exact Hg |];
       repeat split).
  - destruct (update_payment body) as [p|];
      destruct (update_buyer body) as [b|];
      (eexists _, _, _; split; [reflexivity|]; split; [reflexivity|];
       split; [by eapply getCheckout_written |];
       repeat split).
Qed.

(** C8, amended. On a session that is not terminal, an Update that brings a
    payment object replaces the selected instrument id by the one in the
    request, and clears it when the request has none; the instruments are
    replaced when the request has some and kept otherwise; the payment
    status is kept.  A field group that the request leaves out (line items
    with the totals, payment, buyer) is kept. *)
Theorem C8_update_payment_merge now id body st l c :
  getCheckout id st = Some (l, c) →
  ¬ terminal (co_status c) →
  ∃ c' st',
    put_checkout_session products uuidv4 now id body st =
      (json (body_checkout c') 200, st') ∧
    getCheckout id st' = Some (l, c') ∧
    (∀ p, update_payment body = Some p →
       pay_selected_instrument_id (co_payment c') = preq_selected_instrument_id p ∧
       (∀ instruments, preq_instruments p = Some instruments →
          pay_instruments (co_payment c') = instruments) ∧
       (preq_instruments p = None →
          pay_instruments (co_payment c') = pay_instruments (co_payment c)) ∧
       pay_status (co_payment c') = pay_status (co_payment c)) ∧
    (update_payment body = None → co_payment c' = co_payment c) ∧
    (update_line_items body = None →
       co_line_items c' = co_line_items c ∧ co_totals c' = co_totals c) ∧
    (update_buyer body = None → co_buyer c' = co_buyer c).
Proof.
  intros Hg Hnt.
  destruct (put_nonterminal now id body st l c Hg Hnt)
    as (c1 & c' & st' & Hput & -> & Hg' & Hli & Hpay & Hb & _).
  eexists; exists st'. split; [exact Hput|]. split; [exact Hg'|].
  cbn [set_expires_at set_status co_payment co_line_items co_totals co_buyer].
  split; [|split; [|split]].
  - intros p Hp. rewrite Hp in Hpay. rewrite Hpay. cbn.
    split; [done|]. split; [|split; [|done]].
    + by intros instruments ->.
    + by intros ->.
  - intros Hp. by rewrite Hp in Hpay.
  - intros Hl. rewrite Hl in Hli. by destruct Hli as (-> & -> & _).
  - intros Hn. by rewrite Hn in Hb.
Qed.


End Update.

(** C8 as stated fails for the selected instrument: the rose-bouquet
    session has [mock-instrument-1] selected; an Update whose payment object
    brings instruments and no selected instrument id leaves the session with
    no selected instrument (and the new instruments). *)
Lemma C8_omitted_selection_is_cleared :
  getCheckout ready_id ready_run.2 = Some (0%nat, ready_session) ∧
  co_status ready_session = ready_for_complete ∧
  pay_selected_instrument_id (co_payment ready_session) = Some "mock-instrument-1" ∧
  (update_payment offer_instruments ≫= preq_selected_instrument_id) = None ∧
  let r := put_checkout_session flower_shop demo_uuid 1000 ready_id
             offer_instruments ready_run.2 in
  res_status r.1 = 200 ∧
  getCheckout ready_id r.2 = Some (0%nat, session_of r.1) ∧
  pay_selected_instrument_id (co_payment (session_of r.1)) = None ∧
  pay_selected_instrument_id (co_payment (session_of r.1)) ≠
    pay_selected_instrument_id (co_payment ready_session) ∧
  (instrument_id <$> pay_instruments (co_payment (session_of r.1))) = ["card-1"].
Proof. run. Qed.

(** C8 and C9 at the rose-bouquet session and the update that offers
    instruments. *)
Lemma C8_update_payment_merge_witness :
  ∃ c' st',
    put_checkout_session flower_shop demo_uuid 1000 ready_id offer_instruments ready_run.2
    = (json (body_checkout c') 200, st') ∧
    pay_status (co_payment c') = pending ∧
    co_line_items c' = co_line_items ready_session.
Proof.
  destruct (C8_update_payment_merge flower_shop demo_uuid 1000 ready_id
              offer_instruments ready_run.2 0%nat ready_session)
    as (c' & st' & Hput & _ & Hp & _ & Hl & _).
  { vm_compute. reflexivity. }
  { intros [H | H]; vm_compute in H; discriminate. }
  exists c', st'. split; [exact Hput|]. split.
  - destruct (Hp _ eq_refl) as (_ & _ & _ & ->). vm_compute. reflexivity.
  - exact (proj1 (Hl eq_refl)).
Defined.


(** ** Quantities *)

Section Quantities.

Variable products : gmap string Product.
Variable uuidv4 : nat -> string.

Implicit Types (st : Store) (c : CheckoutResponse) (l : nat) (id : string).




End Quantities.


(** ** Well-formed stores, unknown ids and other sessions *)

Section StoreInvariant.

Variable products : gmap string Product.
Variable uuidv4 : nat -> string.

Implicit Types (st : Store) (c : CheckoutResponse) (l : nat) (id : string).

Lemma store_wf_id st id l c :
  store_wf st → getCheckout id st = Some (l, c) → co_id c = id.
Proof.
  intros Hwf [Hs Hh]%getCheckout_Some.
  destruct (Hwf id l Hs) as (c' & Hh' & Hid). congruence.
Qed.

Lemma store_wf_written st id l c c' :
  store_wf st → getCheckout id st = Some (l, c) → co_id c' = co_id c →
  store_wf (saveCheckout l c' (assign l c' st)).
Proof.
  intros Hwf Hg Hid k l' Hk.
  pose proof (store_wf_id st id l c Hwf Hg) as Hcid.
  apply getCheckout_Some in Hg as [Hs Hh]. simpl in Hk |- *.
  assert (Hlt : (l < length (heap st))%nat) by (by eapply lookup_lt_Some).
  destruct (decide (co_id c' = k)) as [<-|Hne].
  - rewrite lookup_insert_eq in Hk. injection Hk as <-.
    exists c'. split; [by apply list_lookup_insert_eq | done].
  - rewrite lookup_insert_ne in Hk by done.
    destruct (Hwf k l' Hk) as (c'' & Hh'' & Hid'').
    exists c''. split; [|done].
    rewrite list_lookup_insert_ne; [done|].
    intros <-. congruence.
Qed.

Lemma store_wf_alloc st c :
  store_wf st → store_wf (saveCheckout (length (heap st)) c (alloc c st).2).
Proof.
  intros Hwf k l' Hk. simpl in Hk |- *.
  destruct (decide (co_id c = k)) as [<-|Hne].
  - rewrite lookup_insert_eq in Hk. injection Hk as <-.
    exists c. split; [|done]. by rewrite lookup_app_r, Nat.sub_diag.
  - rewrite lookup_insert_ne in Hk by done.
    destruct (Hwf k l' Hk) as (c'' & Hh'' & Hid'').
    exists c''. split; [|done].
    rewrite lookup_app_l; [done | by eapply lookup_lt_Some].
Qed.

Lemma other_written st id id' l c c' :
  store_wf st → getCheckout id st = Some (l, c) → co_id c' = co_id c →
  id' ≠ id →
  getCheckout id' (saveCheckout l c' (assign l c' st)) = getCheckout id' st.
Proof.
  intros Hwf Hg Hid Hne.
  pose proof (store_wf_id st id l c Hwf Hg) as Hcid.
  apply getCheckout_Some in Hg as [Hs Hh].
  unfold getCheckout. simpl.
  rewrite lookup_insert_ne by congruence.
  destruct (checkoutSessions st !! id') as [l'|] eqn:Hk; [|done].
  rewrite list_lookup_insert_ne; [done|].
  intros <-. destruct (Hwf id' l Hk) as (c'' & Hh'' & Hid''). congruence.
Qed.

Lemma other_alloc st id' c :
  store_wf st → id' ≠ co_id c →
  getCheckout id' (saveCheckout (length (heap st)) c (alloc c st).2) = getCheckout id' st.
Proof.
  intros Hwf Hne. unfold getCheckout. simpl.
  rewrite lookup_insert_ne by congruence.
  destruct (checkoutSessions st !! id') as [l'|] eqn:Hk; [|done].
  destruct (Hwf id' l' Hk) as (c'' & Hh'' & Hid'').
  rewrite lookup_app_l; [done | by eapply lookup_lt_Some].
Qed.

(** ** The shape of the store after each handler *)

(** Create, once its two checks pass. *)
Lemma create_accepted now body st requests currency :
  create_line_items body = Some requests → requests ≠ [] →
  create_currency body = Some currency → currency ≠ "" →
  let r := resolveLineItems products uuidv4 requests currency (drawn st) in
  ∃ c,
    post_checkout_sessions products uuidv4 now body st =
      (json (body_checkout c) 201,
       saveCheckout (length (heap st)) c (alloc c (set_drawn (S r.2) st)).2) ∧
    co_id c = uuidv4 r.2 ∧
    co_line_items c = r.1.1 ∧
    co_totals c = calculateTotals r.1.1 ∧
    co_currency c = currency ∧
    co_status c = determineStatus c ∧
    co_payment c =
      {| pay_selected_instrument_id := create_payment body ≫= preq_selected_instrument_id;
         pay_instruments :=
           default default_instruments (create_payment body ≫= preq_instruments);
         pay_status := pending |} ∧
    co_buyer c = create_buyer body ∧
    co_messages c = (if (0 <? length r.1.2)%nat then Some (item_error <$> r.1.2) else None) ∧
    co_expires_at c = now + 21600000 ∧
    co_order c = None ∧
    co_links c = legal_links.
Proof.
  intros Hli Hne Hcur Hcne r. subst r.
  unfold post_checkout_sessions. rewrite Hli, Hcur.
  destruct requests as [|req requests]; [done|].
  cbn [JS.truthy]. rewrite bool_decide_eq_false_2 by done.
  cbn [negb from_option id].
  destruct (resolveLineItems products uuidv4 (req :: requests) currency (drawn st))
    as [[items errors] n].
  cbn [fst snd alloc]. eexists. split; [reflexivity|].
  repeat split.
Qed.

(** Update on a session that is not terminal: the store. *)
Lemma put_store now id body st l c :
  getCheckout id st = Some (l, c) →
  ¬ terminal (co_status c) →
  ∃ c' n,
    put_checkout_session products uuidv4 now id body st =
      (json (body_checkout c') 200,
       saveCheckout l c' (assign l c' (set_drawn n st))) ∧
    co_id c' = co_id c ∧
    co_order c' = co_order c ∧
    co_expires_at c' = now + 21600000 ∧
    (co_status c' = incomplete ∨ co_status c' = ready_for_complete).
Proof.
  intros Hg Hnt.
  assert (Hc : co_status c ≠ completed) by (intros H; apply Hnt; by left).
  assert (Hx : co_status c ≠ canceled) by (intros H; apply Hnt; by right).
  assert (Hst : ∀ c0, determineStatus c0 = incomplete ∨ determineStatus c0 = ready_for_complete).
  { intros c0. unfold determineStatus.
    destruct (negb _); [by left|]. destruct (negb _); [by left | by right]. }
  assert (Heta : set_drawn (drawn st) st = st) by (by destruct st).
  unfold put_checkout_session. rewrite Hg.
  rewrite !bool_decide_eq_false_2 by done. cbn [orb].
  destruct (update_line_items body) as [requests|].
  - destruct (resolveLineItems products uuidv4 requests (co_currency c) (drawn st))
      as [[items errors] n] eqn:Hr.
    eexists _, n. split; [reflexivity|].
    split; [|split; [|split; [reflexivity|]]].
    + by destruct (0 <? length errors)%nat, (update_payment body), (update_buyer body).
    + by destruct (0 <? length errors)%nat, (update_payment body), (update_buyer body).
    + apply Hst.
  - eexists _, (drawn st). rewrite Heta. split; [reflexivity|].
    split; [|split; [|split; [reflexivity|]]].
    + by destruct (update_payment body), (update_buyer body).
    + by destruct (update_payment body), (update_buyer body).
    + apply Hst.
Qed.

(** Complete on a ready session with a handler id and a token other than
    [fail_token]. *)
Lemma complete_settled now now' id body data st l c :
  getCheckout id st = Some (l, c) →
  co_status c = ready_for_complete →
  payment_data body = Some data →
  JS.truthy (pd_handler_id data) = true →
  pd_token data ≠ Some "fail_token" →
  let c1 := set_status complete_in_progress c in
  let o := order_for (uuidv4 (drawn st)) now now' c in
  let c2 := set_order (Some {| oc_id := order_id o; oc_created_at := now |})
              (set_payment_status captured (set_status completed c)) in
  post_complete uuidv4 now now' id body st =
    (json (body_checkout c2) 200,
     saveCheckout l c2
       (assign l c2
          (saveOrder o (set_drawn (S (drawn st)) (saveCheckout l c1 (assign l c1 st)))))).
Proof.
  intros Hg Hs Hd Hh Ht. simpl.
  unfold post_complete. rewrite Hg, Hs, Hd, Hh.
  rewrite (bool_decide_eq_false_2 _ Ht). reflexivity.
Qed.

(** Complete on a ready session with a handler id and [fail_token]. *)
Lemma complete_declined now now' id body data st l c :
  getCheckout id st = Some (l, c) →
  co_status c = ready_for_complete →
  payment_data body = Some data →
  JS.truthy (pd_handler_id data) = true →
  pd_token data = Some "fail_token" →
  let c1 := set_status complete_in_progress c in
  let c2 := set_messages (Some [payment_failed_message])
              (set_payment_status failed (set_status ready_for_complete c)) in
  post_complete uuidv4 now now' id body st =
    (json (body_checkout c2) 400,
     saveCheckout l c2 (assign l c2 (saveCheckout l c1 (assign l c1 st)))).
Proof.
  intros Hg Hs Hd Hh Ht. simpl.
  unfold post_complete. rewrite Hg, Hs, Hd, Hh, Ht. reflexivity.
Qed.

(** Cancel on a session that is not terminal. *)
Lemma cancel_open id st l c :
  getCheckout id st = Some (l, c) →
  ¬ terminal (co_status c) →
  let c' := set_messages (Some (default [] (co_messages c) ++ [canceled_message]))
                         (set_status canceled c) in
  post_cancel id st = (json (body_checkout c') 200, saveCheckout l c' (assign l c' st)).
Proof.
  intros Hg Hnt. simpl. unfold post_cancel. rewrite Hg.
  rewrite !bool_decide_eq_false_2; [done | |]; intros H; apply Hnt; [by right | by left].
Qed.

End StoreInvariant.

(** ** What the handlers do to the stores *)

Section Footprint.

Variable products : gmap string Product.
Variable uuidv4 : nat -> string.

Implicit Types (st : Store) (c : CheckoutResponse) (l : nat) (id : string).

Lemma get_touches now id st :
  touches id st (get_checkout_session now id st).2.
Proof.
  unfold get_checkout_session.
  destruct (getCheckout id st) as [[l c]|] eqn:Hg; [|constructor].
  destruct (co_expires_at c <? now); [|constructor].
  eapply touches_session; [constructor | exact Hg | reflexivity].
Qed.

Lemma put_touches now id body st :
  touches id st (put_checkout_session products uuidv4 now id body st).2.
Proof.
  destruct (getCheckout id st) as [[l c]|] eqn:Hg.
  - destruct (decide (co_status c = completed)) as [Hc|Hc];
      [rewrite (put_terminal products uuidv4 now id body st l c Hg (or_introl Hc));
       constructor|].
    destruct (decide (co_status c = canceled)) as [Hx|Hx];
      [rewrite (put_terminal products uuidv4 now id body st l c Hg (or_intror Hx));
       constructor|].
    destruct (put_store products uuidv4 now id body st l c Hg) as (c' & n & -> & Hid & _).
    { by intros [?|?]. }
    eapply touches_session; [apply touches_drawn; constructor | exact Hg | exact Hid].
  - unfold put_checkout_session. rewrite Hg. constructor.
Qed.

Lemma complete_touches now now' id body st :
  touches id st (post_complete uuidv4 now now' id body st).2.
Proof.
  unfold post_complete.
  destruct (getCheckout id st) as [[l c]|] eqn:Hg; [|constructor].
  destruct (bool_decide (co_status c = completed)); [constructor|].
  destruct (bool_decide (co_status c = canceled)); [constructor|].
  destruct (negb (bool_decide (co_status c = ready_for_complete))); [constructor|].
  destruct (payment_data body) as [data|]; [|constructor].
  destruct (negb (JS.truthy (pd_handler_id data))); [constructor|].
  assert (H1 : touches id st
                 (saveCheckout l (set_status complete_in_progress c)
                    (assign l (set_status complete_in_progress c) st))).
  { eapply touches_session; [constructor | exact Hg | reflexivity]. }
  pose proof (getCheckout_written id st l c (set_status complete_in_progress c) Hg) as Hg1.
  destruct (bool_decide (pd_token data = Some "fail_token")).
  - eapply touches_session; [exact H1 | exact Hg1 | reflexivity].
  - eapply touches_session;
      [apply touches_order, touches_drawn; exact H1 | exact Hg1 | reflexivity].
Qed.

Lemma cancel_touches id st : touches id st (post_cancel id st).2.
Proof.
  unfold post_cancel.
  destruct (getCheckout id st) as [[l c]|] eqn:Hg; [|constructor].
  destruct (bool_decide (co_status c = completed)); [constructor|].
  destruct (bool_decide (co_status c = canceled)); [constructor|].
  eapply touches_session; [constructor | exact Hg | reflexivity].
Qed.

Lemma touches_wf id st st' : store_wf st → touches id st st' → store_wf st'.
Proof.
  intros Hwf Ht. induction Ht as [|n st1 _ IH|o st1 _ IH|l c c' st1 _ IH Hg Hid];
    [done | exact IH | exact IH |].
  by eapply store_wf_written.
Qed.

Lemma touches_other id id' st st' :
  store_wf st → touches id st st' → id' ≠ id →
  getCheckout id' st' = getCheckout id' st.
Proof.
  intros Hwf Ht Hne.
  induction Ht as [|n st1 Ht1 IH|o st1 Ht1 IH|l c c' st1 Ht1 IH Hg Hid];
    [done | exact IH | exact IH |].
  rewrite <- IH. eapply other_written; [by eapply touches_wf | exact Hg | exact Hid | exact Hne].
Qed.

Lemma touches_same id st st' l c :
  touches id st st' → getCheckout id st = Some (l, c) →
  ∃ c', getCheckout id st' = Some (l, c').
Proof.
  intros Ht Hg.
  induction Ht as [|n st1 Ht1 IH|o st1 Ht1 IH|l1 c1 c1' st1 Ht1 IH Hg1 Hid];
    [by exists c | exact IH | exact IH |].
  destruct IH as (c0 & Hg0). rewrite Hg0 in Hg1. injection Hg1 as <- <-.
  exists c1'. by eapply getCheckout_written.
Qed.

(** X1. The session map of a well-formed store stays well-formed under every
    handler: each key still refers to a live session object whose [id] is
    that key. *)
Theorem store_wf_preserved now now' id create update payment st :
  store_wf st →
  store_wf (post_checkout_sessions products uuidv4 now create st).2 ∧
  store_wf (get_checkout_session now id st).2 ∧
  store_wf (put_checkout_session products uuidv4 now id update st).2 ∧
  store_wf (post_complete uuidv4 now now' id payment st).2 ∧
  store_wf (post_cancel id st).2.
Proof.
  intros Hwf. split; [|repeat split; eapply touches_wf; eauto using
                         get_touches, put_touches, complete_touches, cancel_touches].
  unfold post_checkout_sessions.
  destruct (create_line_items create) as [[|req requests]|]; [done| |done].
  destruct (negb (JS.truthy (create_currency create))); [done|].
  destruct (resolveLineItems _ _ _ _ _) as [[items errors] n].
  cbn [alloc fst snd].
  match goal with
  | |- store_wf (saveCheckout _ ?c _) =>
      apply (store_wf_alloc (set_drawn (S n) st) c)
  end.
  exact Hwf.
Qed.


(** X3. No handler removes a session: in a well-formed store, an id that
    resolves to a session before Get, Update, Complete or Cancel (called for
    any id) resolves to a session at the same reference afterwards. *)
Theorem sessions_never_removed now now' id id' update payment st l c :
  store_wf st →
  getCheckout id' st = Some (l, c) →
  (∃ c', getCheckout id' (get_checkout_session now id st).2 = Some (l, c')) ∧
  (∃ c', getCheckout id' (put_checkout_session products uuidv4 now id update st).2
         = Some (l, c')) ∧
  (∃ c', getCheckout id' (post_complete uuidv4 now now' id payment st).2 = Some (l, c')) ∧
  (∃ c', getCheckout id' (post_cancel id st).2 = Some (l, c')).
Proof.
  intros Hwf Hg.
  assert (H : ∀ st', touches id st st' → ∃ c', getCheckout id' st' = Some (l, c')).
  { intros st' Ht. destruct (decide (id' = id)) as [->|Hne].
    - by eapply touches_same.
    - exists c. by rewrite (touches_other id id' st st' Hwf Ht Hne). }
  repeat split; apply H; eauto using
    get_touches, put_touches, complete_touches, cancel_touches.
Qed.

(** X4. An id that no session is stored under: Get, Update, Complete and Cancel
    answer 404 "Checkout session not found" and leave the stores as they
    are. *)
Theorem unknown_id_not_found now now' id update payment st :
  getCheckout id st = None →
  let not_found := (json (body_error "Checkout session not found") 404, st) in
  get_checkout_session now id st = not_found ∧
  put_checkout_session products uuidv4 now id update st = not_found ∧
  post_complete uuidv4 now now' id payment st = not_found ∧
  post_cancel id st = not_found.
Proof.
  intros Hg. unfold get_checkout_session, put_checkout_session, post_complete, post_cancel.
  rewrite Hg. done.
Qed.

End Footprint.

(** ** More on the resolver *)

Section ResolverMore.

Variable products : gmap string Product.
Variable uuidv4 : nat -> string.

Implicit Types (requests : list LineItemRequest) (n : nat).

Lemma outcomes_split (os : list Outcome) :
  (length (omap priced_of os) + length (omap error_of os))%nat = length os.
Proof.
  induction os as [|[e|p q] os IH]; [done|..];
    cbn [omap list_omap priced_of error_of length]; lia.
Qed.

Lemma resolve_lengths requests currency n :
  let r := resolveLineItems products uuidv4 requests currency n in
  (length r.1.1 + length r.1.2)%nat = length requests ∧
  r.2 = (n + length r.1.1)%nat.
Proof.
  intros r.
  destruct (resolve_loop products uuidv4 currency requests [] [] n) as (He & Hp & _ & Hn).
  fold (resolveLineItems products uuidv4 requests currency n) in He, Hp, Hn.
  fold r in He, Hp, Hn. simpl in He, Hp.
  pose proof (outcomes_split (outcome products currency <$> requests)) as Hsplit.
  rewrite length_fmap in Hsplit.
  assert (Hlen : length r.1.1 = length (omap priced_of (outcome products currency <$> requests))).
  { by rewrite <- Hp, length_fmap. }
  rewrite <- Hlen, <- He in Hsplit. rewrite <- Hlen in Hn.
  split; [exact Hsplit | exact Hn].
Qed.

(** X5. Every request ends up as exactly one line item or one error, and the
    resolver draws one identifier per line item: the two lists together are
    as long as the request list, and there is no error exactly when every
    request became a line item. *)
Theorem resolve_counts requests currency n :
  let r := resolveLineItems products uuidv4 requests currency n in
  (length r.1.1 + length r.1.2)%nat = length requests ∧
  r.2 = (n + length r.1.1)%nat ∧
  (r.1.2 = [] ↔ length r.1.1 = length requests).
Proof.
  intros r.
  destruct (resolve_lengths requests currency n) as [Hsplit Hn]. fold r in Hsplit, Hn.
  split; [exact Hsplit|]. split; [exact Hn|].
  split.
  - intros Hnil. rewrite Hnil in Hsplit. simpl in Hsplit. lia.
  - intros Hall. apply length_zero_iff_nil. lia.
Qed.

Lemma resolve_loop_app currency requests1 requests2 acc :
  fold_left (resolve_step products uuidv4 currency) (requests1 ++ requests2) acc =
  fold_left (resolve_step products uuidv4 currency) requests2
    (fold_left (resolve_step products uuidv4 currency) requests1 acc).
Proof. apply fold_left_app. Qed.

(** The loop started from accumulators is the loop started from empty
    lists, put after the accumulators. *)
Lemma resolve_loop_acc currency requests items errors n :
  fold_left (resolve_step products uuidv4 currency) requests (items, errors, n) =
  let r := resolveLineItems products uuidv4 requests currency n in
  (items ++ r.1.1, errors ++ r.1.2, r.2).
Proof.
  unfold resolveLineItems.
  revert items errors n. induction requests as [|req requests IH]; intros items errors n.
  - simpl. by rewrite !app_nil_r.
  - cbn [fold_left]. rewrite !resolve_step_outcome.
    destruct (outcome products currency req) as [e|p q].
    + rewrite IH, (IH [] ([] ++ [e]) n). cbn zeta. cbn [fst snd app].
      by rewrite <- !app_assoc.
    + rewrite IH. cbn [app].
      match goal with
      | |- context [fold_left _ _ ([?it], [], S n)] => rewrite (IH [it] [] (S n))
      end.
      cbn zeta. cbn [fst snd app]. by rewrite <- !app_assoc.
Qed.

(** X6. Resolving a concatenation of request lists is resolving the first list
    and then the second, the second drawing its identifiers where the first
    stopped; items and errors are concatenated. *)
Theorem resolve_app requests1 requests2 currency n :
  let r1 := resolveLineItems products uuidv4 requests1 currency n in
  let r2 := resolveLineItems products uuidv4 requests2 currency r1.2 in
  resolveLineItems products uuidv4 (requests1 ++ requests2) currency n =
    (r1.1.1 ++ r2.1.1, r1.1.2 ++ r2.1.2, r2.2).
Proof.
  intros r1 r2. unfold resolveLineItems at 1.
  rewrite resolve_loop_app.
  fold (resolveLineItems products uuidv4 requests1 currency n). fold r1.
  destruct r1 as [[items1 errors1] n1] eqn:Hr1.
  rewrite resolve_loop_acc. reflexivity.
Qed.

(** X7. When the source of identifiers gives distinct identifiers at distinct
    draws, the line items of one resolution have pairwise distinct ids. *)
Theorem resolve_ids_distinct requests currency n :
  (∀ i j, uuidv4 i = uuidv4 j → i = j) →
  NoDup (li_id <$> (resolveLineItems products uuidv4 requests currency n).1.1).
Proof.
  intros Hinj.
  destruct (resolve_loop products uuidv4 currency requests [] [] n) as (_ & _ & Hi & _).
  fold (resolveLineItems products uuidv4 requests currency n) in Hi.
  simpl in Hi. rewrite Hi.
  apply NoDup_fmap_2; [intros i j; apply Hinj | apply NoDup_seq].
Qed.

End ResolverMore.

(** ** Create *)

Section Create.

Variable products : gmap string Product.
Variable uuidv4 : nat -> string.

Implicit Types (st : Store) (c : CheckoutResponse) (l : nat) (id : string).

(** X8. Create without line items (absent or an empty list) answers 400
    "line_items is required and cannot be empty"; with line items but
    without a currency (absent or the empty string) it answers 400 "currency
    is required".  Either way the stores are as before: no session is
    stored, no identifier is drawn. *)
Theorem create_validation now body st :
  (create_line_items body = None ∨ create_line_items body = Some [] →
   post_checkout_sessions products uuidv4 now body st =
     (json (body_error "line_items is required and cannot be empty") 400, st)) ∧
  (∀ req requests,
     create_line_items body = Some (req :: requests) →
     JS.truthy (create_currency body) = false →
     post_checkout_sessions products uuidv4 now body st =
       (json (body_error "currency is required") 400, st)).
Proof.
  split.
  - intros [H | H]; unfold post_checkout_sessions; by rewrite H.
  - intros req requests Hli Hcur. unfold post_checkout_sessions. by rewrite Hli, Hcur.
Qed.

Lemma getCheckout_alloc st c :
  getCheckout (co_id c) (saveCheckout (length (heap st)) c (alloc c st).2) =
  Some (length (heap st), c).
Proof.
  apply getCheckout_Some. simpl. split; [apply lookup_insert_eq|].
  by rewrite lookup_app_r, Nat.sub_diag.
Qed.


(** X10. The session Create stores accounts for every request: its line items
    and its messages together are as many as the requests, every message is
    an [error] with code [ITEM_ERROR], the totals are those of the line
    items, the payment status is [pending], and the status is
    [ready_for_complete] exactly when there is a line item and a non-empty
    selected instrument id, and [incomplete] otherwise. *)
Theorem create_accounts_for_requests now body st requests currency :
  create_line_items body = Some requests → requests ≠ [] →
  create_currency body = Some currency → currency ≠ "" →
  ∃ c st',
    post_checkout_sessions products uuidv4 now body st = (json (body_checkout c) 201, st') ∧
    (length (co_line_items c) + length (default [] (co_messages c)))%nat = length requests ∧
    Forall (λ m, msg_type m = error ∧ msg_code m = "ITEM_ERROR") (default [] (co_messages c)) ∧
    co_totals c = calculateTotals (co_line_items c) ∧
    pay_status (co_payment c) = pending ∧
    (co_status c = ready_for_complete ∨ co_status c = incomplete) ∧
    (co_status c = ready_for_complete ↔
       co_line_items c ≠ [] ∧
       JS.truthy (pay_selected_instrument_id (co_payment c)) = true).
Proof.
  intros Hli Hne Hcur Hcne.
  destruct (create_accepted products uuidv4 now body st requests currency Hli Hne Hcur Hcne)
    as (c & Hpost & _ & Hitems & Htot & _ & Hst & Hpay & _ & Hmsg & _).
  destruct (resolve_lengths products uuidv4 requests currency (drawn st)) as (Hcount & _).
  cbn zeta in Hitems, Htot, Hmsg, Hcount.
  eexists c, _. split; [exact Hpost|].
  split; [|split; [|split; [|split; [|split]]]].
  - rewrite Hitems, Hmsg.
    destruct ((resolveLineItems products uuidv4 requests currency (drawn st)).1.2)
      as [|e errors] eqn:He; simpl in Hcount |- *; [lia|].
    rewrite length_fmap. simpl. lia.
  - rewrite Hmsg. destruct (0 <? length _)%nat; [|constructor].
    apply Forall_fmap, Forall_true. done.
  - by rewrite Htot, Hitems.
  - by rewrite Hpay.
  - rewrite Hst. unfold determineStatus.
    destruct (negb _); [by right|]. destruct (negb _); [by right | by left].
  - rewrite Hst. unfold determineStatus.
    destruct (co_line_items c) as [|it items]; simpl.
    + split; [done | by intros [? _]].
    + destruct (JS.truthy _); simpl; split; try done. by intros [_ ?].
Qed.

End Create.

(** ** Complete *)

Section Complete.

Variable uuidv4 : nat -> string.

Implicit Types (st : Store) (c : CheckoutResponse) (l : nat) (id : string).

(** X11. Complete does nothing unless the session is [ready_for_complete] and
    the payment data carry a non-empty handler id: in every other case the
    stores are as before and the answer is 400 or 404.  For a session that
    is neither [completed], [canceled] nor [ready_for_complete], the answer
    reports its current status. *)
Theorem complete_guards now now' id body st :
  let r := post_complete uuidv4 now now' id body st in
  ((∃ l c data, getCheckout id st = Some (l, c) ∧
                co_status c = ready_for_complete ∧
                payment_data body = Some data ∧
                JS.truthy (pd_handler_id data) = true)
   ∨ (r.2 = st ∧ (res_status r.1 = 400 ∨ res_status r.1 = 404))) ∧
  (∀ l c, getCheckout id st = Some (l, c) →
          ¬ terminal (co_status c) → co_status c ≠ ready_for_complete →
          r = (json (body_not_ready "Checkout not ready for completion" (co_status c)
                       "Ensure all required fields are set (line_items, payment selection)")
                    400, st)).
Proof.
  intros r. subst r. unfold post_complete. split.
  - destruct (getCheckout id st) as [[l c]|] eqn:Hg; [|right; auto].
    destruct (bool_decide (co_status c = completed)); [right; auto|].
    destruct (bool_decide (co_status c = canceled)); [right; auto|].
    destruct (bool_decide (co_status c = ready_for_complete)) eqn:Hr; [|right; auto].
    apply bool_decide_eq_true_1 in Hr. cbn [negb].
    destruct (payment_data body) as [data|] eqn:Hd; [|right; auto].
    destruct (JS.truthy (pd_handler_id data)) eqn:Hh; [|right; auto].
    left. by exists l, c, data.
  - intros l c Hg Hnt Hnr. rewrite Hg.
    rewrite !bool_decide_eq_false_2; [done | done | |];
      intros H; apply Hnt; [by right | by left].
Qed.

(** X12. A successful Complete.  On a [ready_for_complete] session, with a
    handler id and a token other than [fail_token], the answer is 200 with
    the session [completed], payment [captured] and a reference to a new
    order; the order is found under that reference and holds the session's
    id, line items, totals and buyer; the journal gets, in this order, the
    session in progress, the order, the completed session; one identifier
    is drawn and the messages of the session are not touched. *)
Theorem complete_success now now' id body data st l c :
  getCheckout id st = Some (l, c) →
  co_status c = ready_for_complete →
  payment_data body = Some data →
  JS.truthy (pd_handler_id data) = true →
  pd_token data ≠ Some "fail_token" →
  ∃ c' o st',
    post_complete uuidv4 now now' id body st = (json (body_checkout c') 200, st') ∧
    getCheckout id st' = Some (l, c') ∧
    co_status c' = completed ∧
    pay_status (co_payment c') = captured ∧
    co_order c' = Some {| oc_id := order_id o; oc_created_at := now |} ∧
    getOrder (order_id o) st' = Some o ∧
    order_checkout_id o = co_id c ∧
    order_line_items o = co_line_items c' ∧
    order_totals o = co_totals c' ∧
    order_buyer o = co_buyer c' ∧
    order_status o = order_pending ∧
    journal st' = journal st ++ [saved_checkout (set_status complete_in_progress c);
                                 saved_order o; saved_checkout c'] ∧
    drawn st' = S (drawn st) ∧
    co_messages c' = co_messages c.
Proof.
  intros Hg Hs Hd Hh Ht.
  pose proof (complete_settled uuidv4 now now' id body data st l c Hg Hs Hd Hh Ht) as H.
  cbn zeta in H.
  eexists _, _, _. split; [exact H|].
  split.
  { eapply getCheckout_written.
    apply (getCheckout_written id st l c (set_status complete_in_progress c)) in Hg.
    exact Hg. }
  split; [reflexivity|]. split; [reflexivity|]. split; [reflexivity|].
  split. { unfold getOrder. simpl. apply lookup_insert_eq. }
  split; [reflexivity|]. split; [reflexivity|]. split; [reflexivity|].
  split; [reflexivity|]. split; [reflexivity|].
  split. { simpl. by rewrite <- !app_assoc. }
  split; reflexivity.
Qed.

(** X13. A declined payment can be retried.  After a Complete with [fail_token]
    on a [ready_for_complete] session, a second Complete with a handler id
    and another token succeeds: the session is [completed] with payment
    [captured]; it still carries the [PAYMENT_FAILED] message of the first
    attempt. *)
Theorem retry_after_decline now now' t t' id body body' data data' st l c :
  getCheckout id st = Some (l, c) →
  co_status c = ready_for_complete →
  payment_data body = Some data →
  JS.truthy (pd_handler_id data) = true →
  pd_token data = Some "fail_token" →
  payment_data body' = Some data' →
  JS.truthy (pd_handler_id data') = true →
  pd_token data' ≠ Some "fail_token" →
  ∃ c' st',
    post_complete uuidv4 t t' id body' (post_complete uuidv4 now now' id body st).2
      = (json (body_checkout c') 200, st') ∧
    getCheckout id st' = Some (l, c') ∧
    co_status c' = completed ∧
    pay_status (co_payment c') = captured ∧
    codes c' = ["PAYMENT_FAILED"].
Proof.
  intros Hg Hs Hd Hh Ht Hd' Hh' Ht'.
  rewrite (complete_declined uuidv4 now now' id body data st l c Hg Hs Hd Hh Ht).
  cbn zeta. cbn [snd].
  set (c1 := set_status complete_in_progress c).
  set (c2 := set_messages _ _).
  assert (Hg2 : getCheckout id (saveCheckout l c2 (assign l c2 (saveCheckout l c1 (assign l c1 st))))
                = Some (l, c2)).
  { eapply getCheckout_written. by eapply getCheckout_written. }
  rewrite (complete_settled uuidv4 t t' id body' data' _ l c2 Hg2 eq_refl Hd' Hh' Ht').
  cbn zeta. eexists _, _. split; [reflexivity|].
  split; [|repeat split].
  eapply getCheckout_written.
  apply (getCheckout_written id _ l c2 (set_status complete_in_progress c2)) in Hg2.
  exact Hg2.
Qed.

End Complete.

(** ** Terminal sessions *)

Section TerminalMore.

Variable products : gmap string Product.
Variable uuidv4 : nat -> string.

Implicit Types (st : Store) (c : CheckoutResponse) (l : nat) (id : string).

(** X14. [canceled] is absorbing: whatever handler is called for a canceled
    session, at whatever time and with whatever request, the session stored
    afterwards is still [canceled]. *)
Theorem canceled_is_absorbing now now' id update payment st l c :
  getCheckout id st = Some (l, c) →
  co_status c = canceled →
  status_at id (get_checkout_session now id st).2 = Some canceled ∧
  status_at id (put_checkout_session products uuidv4 now id update st).2 = Some canceled ∧
  status_at id (post_complete uuidv4 now now' id payment st).2 = Some canceled ∧
  status_at id (post_cancel id st).2 = Some canceled.
Proof.
  intros Hg Hs.
  assert (Hst : status_at id st = Some canceled).
  { unfold status_at. rewrite Hg. simpl. by rewrite Hs. }
  split; [|split; [|split]].
  - destruct (Z.ltb_spec (co_expires_at c) now) as [Hlt|Hle].
    + destruct (get_expired now id st l c Hg Hlt) as [-> Hg'].
      unfold status_at. cbn [snd]. by rewrite Hg'.
    + by rewrite (get_unexpired now id st l c Hg Hle).
  - by rewrite (put_terminal products uuidv4 now id update st l c Hg (or_intror Hs)).
  - by rewrite (post_complete_canceled uuidv4 now now' id payment st l c Hg Hs).
  - by rewrite (post_cancel_canceled id st l c Hg Hs).
Qed.

(** X15. A [completed] session is left as it is, and so are the stores, by
    Update, Complete and Cancel at any time, and by Get up to its expiry
    time. *)
Theorem completed_is_kept_until_expiry now now' t id update payment st l c :
  getCheckout id st = Some (l, c) →
  co_status c = completed →
  t <= co_expires_at c →
  (get_checkout_session t id st).2 = st ∧
  (put_checkout_session products uuidv4 now id update st).2 = st ∧
  (post_complete uuidv4 now now' id payment st).2 = st ∧
  (post_cancel id st).2 = st ∧
  (get_checkout_session t id st).1 = json (body_checkout c) 200.
Proof.
  intros Hg Hs Ht.
  rewrite (get_unexpired t id st l c Hg Ht).
  rewrite (put_terminal products uuidv4 now id update st l c Hg (or_introl Hs)).
  rewrite (post_complete_completed uuidv4 now now' id payment st l c Hg Hs).
  rewrite (post_cancel_completed id st l c Hg Hs).
  done.
Qed.

(** X16. Orders are written by a successful Complete only: Create, Get, Update
    and Cancel leave the orders as they are, and Complete either leaves
    them or files one order, for the session it was called for. *)
Theorem orders_written_by_complete_only now now' id create update payment st :
  orders (post_checkout_sessions products uuidv4 now create st).2 = orders st ∧
  orders (get_checkout_session now id st).2 = orders st ∧
  orders (put_checkout_session products uuidv4 now id update st).2 = orders st ∧
  orders (post_cancel id st).2 = orders st ∧
  (orders (post_complete uuidv4 now now' id payment st).2 = orders st ∨
   ∃ l c o, getCheckout id st = Some (l, c) ∧
            order_checkout_id o = co_id c ∧
            res_status (post_complete uuidv4 now now' id payment st).1 = 200 ∧
            orders (post_complete uuidv4 now now' id payment st).2
              = <[order_id o := o]> (orders st)).
Proof.
  split; [|split; [|split; [|split]]].
  - unfold post_checkout_sessions.
    destruct (create_line_items create) as [[|req requests]|]; [done| |done].
    destruct (negb (JS.truthy (create_currency create))); [done|].
    by destruct (resolveLineItems _ _ _ _ _) as [[items errors] n].
  - unfold get_checkout_session.
    destruct (getCheckout id st) as [[l c]|]; [|done].
    by destruct (co_expires_at c <? now).
  - destruct (getCheckout id st) as [[l c]|] eqn:Hg.
    + destruct (decide (co_status c = completed)) as [Hc|Hc];
        [by rewrite (put_terminal products uuidv4 now id update st l c Hg (or_introl Hc))|].
      destruct (decide (co_status c = canceled)) as [Hx|Hx];
        [by rewrite (put_terminal products uuidv4 now id update st l c Hg (or_intror Hx))|].
      destruct (put_store products uuidv4 now id update st l c Hg) as (c' & n & -> & _).
      { by intros [?|?]. }
      done.
    + unfold put_checkout_session. by rewrite Hg.
  - unfold post_cancel.
    destruct (getCheckout id st) as [[l c]|]; [|done].
    destruct (bool_decide (co_status c = completed)); [done|].
    by destruct (bool_decide (co_status c = canceled)).
  - unfold post_complete.
    destruct (getCheckout id st) as [[l c]|] eqn:Hg; [|by left].
    destruct (bool_decide (co_status c = completed)); [by left|].
    destruct (bool_decide (co_status c = canceled)); [by left|].
    destruct (negb (bool_decide (co_status c = ready_for_complete))); [by left|].
    destruct (payment_data payment) as [data|]; [|by left].
    destruct (negb (JS.truthy (pd_handler_id data))); [by left|].
    destruct (bool_decide (pd_token data = Some "fail_token")); [by left|].
    right. exists l, c, (order_for (uuidv4 (drawn st)) now now' c).
    split; [done|]. split; [|split]; reflexivity.
Qed.

End TerminalMore.

(** ** More on Update *)

Section UpdateMore.

Variable products : gmap string Product.
Variable uuidv4 : nat -> string.

Implicit Types (st : Store) (c : CheckoutResponse) (l : nat) (id : string).


(** X18. Update accepts an empty list of line items, which Create refuses: the
    session is left with no line item, totals 0 / 0 / 599 / 0 / 599 and
    status [incomplete]; its messages are kept. *)
Theorem update_with_no_items now id payment buyer st l c :
  getCheckout id st = Some (l, c) →
  ¬ terminal (co_status c) →
  ∃ c' st',
    put_checkout_session products uuidv4 now id
      {| update_line_items := Some []; update_payment := payment; update_buyer := buyer |} st
    = (json (body_checkout c') 200, st') ∧
    getCheckout id st' = Some (l, c') ∧
    co_line_items c' = [] ∧
    co_totals c' = {| subtotal := 0; tax := 0; shipping := 599; discount := 0; total := 599 |} ∧
    co_status c' = incomplete ∧
    co_messages c' = co_messages c.
Proof.
  intros Hg Hnt.
  destruct (put_nonterminal products uuidv4 now id
              {| update_line_items := Some []; update_payment := payment;
                 update_buyer := buyer |} st l c Hg Hnt)
    as (c1 & c' & st' & Hput & -> & Hg' & Hli & _).
  cbn in Hli. destruct Hli as (Hitems & Htot & Hmsg).
  eexists _, st'. split; [exact Hput|]. split; [exact Hg'|].
  cbn [set_expires_at set_status co_line_items co_totals co_status co_messages].
  split; [exact Hitems|]. split; [exact Htot|]. split; [|exact Hmsg].
  unfold determineStatus. by rewrite Hitems.
Qed.

(** X19. The flow the demo client walks through: Create, then an Update that
    selects an instrument (with or without instruments and a buyer, and no
    line items), then Complete with a handler id and a token other than
    [fail_token].  When at least one request resolves to a line item, the
    session ends [completed] with the line items and totals it was created
    with, and the order filed for it holds the session's id, those line
    items and their totals. *)
Theorem create_select_complete now t1 t2 t2' body st requests currency instrument
    offered buyer payment data :
  create_line_items body = Some requests → requests ≠ [] →
  create_currency body = Some currency → currency ≠ "" →
  (resolveLineItems products uuidv4 requests currency (drawn st)).1.1 ≠ [] →
  instrument ≠ "" →
  payment_data payment = Some data →
  JS.truthy (pd_handler_id data) = true →
  pd_token data ≠ Some "fail_token" →
  ∃ c st1 c2 st2 c3 st3 o,
    post_checkout_sessions products uuidv4 now body st = (json (body_checkout c) 201, st1) ∧
    put_checkout_session products uuidv4 t1 (co_id c)
      {| update_line_items := None;
         update_payment := Some {| preq_selected_instrument_id := Some instrument;
                                   preq_instruments := offered |};
         update_buyer := buyer |} st1
      = (json (body_checkout c2) 200, st2) ∧
    post_complete uuidv4 t2 t2' (co_id c) payment st2 = (json (body_checkout c3) 200, st3) ∧
    co_status c2 = ready_for_complete ∧
    co_status c3 = completed ∧
    co_id c3 = co_id c ∧
    co_line_items c3 = co_line_items c ∧
    co_totals c3 = co_totals c ∧
    co_order c3 = Some {| oc_id := order_id o; oc_created_at := t2 |} ∧
    getOrder (order_id o) st3 = Some o ∧
    order_checkout_id o = co_id c ∧
    order_line_items o = (resolveLineItems products uuidv4 requests currency (drawn st)).1.1 ∧
    order_totals o =
      calculateTotals (resolveLineItems products uuidv4 requests currency (drawn st)).1.1.
Proof.
  intros Hli Hne Hcur Hcne Hitems Hins Hd Hh Ht.
  destruct (create_accepted products uuidv4 now body st requests currency Hli Hne Hcur Hcne)
    as (c & Hpost & _ & Hci & Hct & _ & Hcs & _).
  cbn zeta in Hci, Hct.
  set (st1 := saveCheckout _ c _) in Hpost.
  assert (Hg1 : getCheckout (co_id c) st1 = Some (length (heap st), c)).
  { apply (getCheckout_alloc (set_drawn _ st) c). }
  assert (Hnt : ¬ terminal (co_status c)).
  { rewrite Hcs. unfold determineStatus.
    destruct (negb _); [by intros [?|?]|]. destruct (negb _); by intros [?|?]. }
  destruct (put_nonterminal products uuidv4 t1 (co_id c)
              {| update_line_items := None;
                 update_payment := Some {| preq_selected_instrument_id := Some instrument;
                                           preq_instruments := offered |};
                 update_buyer := buyer |}
              st1 _ c Hg1 Hnt)
    as (c1 & c2 & st2 & Hput & Hc2 & Hg2 & Hli1 & Hpay1 & _ & Hid1 & _).
  cbn in Hli1, Hpay1. destruct Hli1 as (Hi1 & Ht1 & _).
  assert (Hs2 : co_status c2 = ready_for_complete).
  { rewrite Hc2. cbn. unfold determineStatus. rewrite Hi1, Hpay1, Hci. cbn.
    destruct (resolveLineItems _ _ _ _ _).1.1; [done|]. cbn.
    by rewrite bool_decide_eq_false_2. }
  pose proof (complete_settled uuidv4 t2 t2' (co_id c) payment data st2 _ c2
                Hg2 Hs2 Hd Hh Ht) as Hcomp.
  cbn zeta in Hcomp.
  exists c, st1, c2, st2. eexists. eexists.
  exists (order_for (uuidv4 (drawn st2)) t2 t2' c2).
  split; [exact Hpost|]. split; [exact Hput|]. split; [exact Hcomp|].
  split; [exact Hs2|]. split; [reflexivity|].
  cbn [co_id co_line_items co_totals co_order set_order set_payment_status set_payment
       set_status order_for order_checkout_id order_line_items order_totals order_id].
  assert (E1 : co_id c2 = co_id c) by (by rewrite Hc2).
  assert (E2 : co_line_items c2 = co_line_items c) by (by rewrite Hc2).
  assert (E3 : co_totals c2 = co_totals c) by (by rewrite Hc2).
  split; [exact E1|]. split; [exact E2|]. split; [exact E3|].
  split; [reflexivity|].
  split. { unfold getOrder. cbn [orders saveCheckout assign saveOrder order_id].
           apply lookup_insert_eq. }
  split; [exact E1|]. split; [by rewrite E2|]. by rewrite E3, Hct.
Qed.

End UpdateMore.

(** ** More on the totals *)

Section TotalsMore.






End TotalsMore.

(** ** The properties above on runs of the flower shop *)

(** Closing a ground side condition by evaluation. *)
Ltac ground :=
  first [ vm_compute; reflexivity
        | let H := fresh in intros H; vm_compute in H; discriminate H ].

Lemma empty_store_wf : store_wf empty_store.
Proof. intros id l H. simpl in H. by rewrite lookup_empty in H. Qed.

Lemma ready_store_wf : store_wf ready_run.2.
Proof.
  unfold ready_run.
  pose proof (create_accepted flower_shop demo_uuid 0
                (create_with [request "rose-bouquet" 1] (Some mock_selection))
                empty_store [request "rose-bouquet" 1] "USD"
                eq_refl ltac:(done) eq_refl ltac:(done)) as H.
  cbn zeta in H. destruct H as (c & Heq & _). rewrite Heq. cbn [snd].
  match goal with
  | |- store_wf (saveCheckout _ c (alloc c ?s).2) => apply (store_wf_alloc s c)
  end.
  apply empty_store_wf.
Qed.

Lemma store_wf_preserved_witness :
  store_wf (post_cancel ready_id ready_run.2).2.
Proof.
  refine (proj2 (proj2 (proj2 (proj2
            (store_wf_preserved flower_shop demo_uuid 0 0 ready_id
               (create_with [] None) offer_instruments (pay_with None None)
               ready_run.2 ready_store_wf))))).
Defined.


Lemma sessions_never_removed_witness :
  ∃ c', getCheckout ready_id (post_cancel ready_id ready_run.2).2 = Some (0%nat, c').
Proof.
  refine (proj2 (proj2 (proj2
            (sessions_never_removed flower_shop demo_uuid 0 0 ready_id ready_id
               offer_instruments (pay_with None None) ready_run.2 0%nat ready_session
               ready_store_wf _)))).
  vm_compute. reflexivity.
Defined.

Lemma unknown_id_not_found_witness :
  post_cancel "nowhere" ready_run.2
  = (json (body_error "Checkout session not found") 404, ready_run.2).
Proof.
  refine (proj2 (proj2 (proj2
            (unknown_id_not_found flower_shop demo_uuid 0 0 "nowhere"
               offer_instruments (pay_with None None) ready_run.2 _)))).
  vm_compute. reflexivity.
Defined.

Lemma resolve_ids_distinct_witness :
  NoDup (li_id <$> (resolveLineItems flower_shop numbered_uuid
                      [request "rose-bouquet" 1; request "orchid-plant" 2] "USD" 0).1.1).
Proof.
  apply (resolve_ids_distinct flower_shop numbered_uuid).
  intros i j. apply pretty_nat_inj.
Defined.

Lemma create_validation_witness :
  post_checkout_sessions flower_shop demo_uuid 0
    {| create_line_items := Some [request "rose-bouquet" 1]; create_currency := Some "";
       create_payment := None; create_buyer := None |} empty_store
  = (json (body_error "currency is required") 400, empty_store).
Proof.
  refine (proj2 (create_validation flower_shop demo_uuid 0 _ empty_store) _ _ _ _);
    vm_compute; reflexivity.
Defined.


Lemma create_accounts_for_requests_witness :
  ∃ c st',
    post_checkout_sessions flower_shop demo_uuid 0 (create_with mixed_requests None)
      empty_store = (json (body_checkout c) 201, st') ∧
    (length (co_line_items c) + length (default [] (co_messages c)))%nat = 3%nat.
Proof.
  destruct (create_accounts_for_requests flower_shop demo_uuid 0
              (create_with mixed_requests None) empty_store mixed_requests "USD")
    as (c & st' & H1 & H2 & _); [ground.. |].
  exists c, st'. conjuncts; assumption.
Defined.

Lemma complete_guards_witness :
  post_complete demo_uuid 0 0 (demo_uuid 2) (pay_with (Some "h") None) bouquets_run.2
  = (json (body_not_ready "Checkout not ready for completion" incomplete
             "Ensure all required fields are set (line_items, payment selection)")
          400, bouquets_run.2).
Proof.
  refine (proj2 (complete_guards demo_uuid 0 0 (demo_uuid 2) (pay_with (Some "h") None)
                   bouquets_run.2) 0%nat (session_of bouquets_run.1) _ _ _).
  - vm_compute. reflexivity.
  - intros [H|H]; vm_compute in H; discriminate.
  - vm_compute. discriminate.
Defined.

Lemma complete_success_witness :
  ∃ c' o st',
    post_complete demo_uuid 1000 1000 ready_id
      (pay_with (Some "mock-payment-handler") (Some "success_token")) ready_run.2
    = (json (body_checkout c') 200, st') ∧
    co_status c' = completed ∧
    getOrder (order_id o) st' = Some o.
Proof.
  destruct (complete_success demo_uuid 1000 1000 ready_id
              (pay_with (Some "mock-payment-handler") (Some "success_token"))
              {| pd_handler_id := Some "mock-payment-handler";
                 pd_token := Some "success_token" |}
              ready_run.2 0%nat ready_session)
    as (c' & o & st' & H1 & _ & H2 & _ & _ & H3 & _);
    [ground.. |].
  exists c', o, st'. conjuncts; assumption.
Defined.

Lemma retry_after_decline_witness :
  ∃ c' st',
    post_complete demo_uuid 2000 2000 ready_id
      (pay_with (Some "mock-payment-handler") (Some "success_token"))
      (post_complete demo_uuid 1000 1000 ready_id
         (pay_with (Some "mock-payment-handler") (Some "fail_token")) ready_run.2).2
    = (json (body_checkout c') 200, st') ∧
    co_status c' = completed ∧
    codes c' = ["PAYMENT_FAILED"].
Proof.
  destruct (retry_after_decline demo_uuid 1000 1000 2000 2000 ready_id
              (pay_with (Some "mock-payment-handler") (Some "fail_token"))
              (pay_with (Some "mock-payment-handler") (Some "success_token"))
              {| pd_handler_id := Some "mock-payment-handler"; pd_token := Some "fail_token" |}
              {| pd_handler_id := Some "mock-payment-handler";
                 pd_token := Some "success_token" |}
              ready_run.2 0%nat ready_session)
    as (c' & st' & H1 & _ & H2 & _ & H3);
    [ground.. |].
  exists c', st'. conjuncts; assumption.
Defined.

Lemma canceled_is_absorbing_witness :
  status_at ready_id (get_checkout_session after_expiry ready_id canceled_run.2).2
  = Some canceled.
Proof.
  refine (proj1 (canceled_is_absorbing flower_shop demo_uuid after_expiry 0 ready_id
                   offer_instruments (pay_with None None) canceled_run.2 0%nat
                   canceled_session _ _));
    vm_compute; reflexivity.
Defined.

Lemma completed_is_kept_until_expiry_witness :
  (get_checkout_session expiry ready_id completed_run.2).2 = completed_run.2.
Proof.
  refine (proj1 (completed_is_kept_until_expiry flower_shop demo_uuid 0 0 expiry ready_id
                   offer_instruments (pay_with None None) completed_run.2 0%nat
                   completed_session _ _ _)).
  - vm_compute. reflexivity.
  - vm_compute. reflexivity.
  - vm_compute. discriminate.
Defined.


Lemma update_with_no_items_witness :
  ∃ c' st',
    put_checkout_session flower_shop demo_uuid 1000 ready_id empty_cart ready_run.2
    = (json (body_checkout c') 200, st') ∧
    co_line_items c' = [] ∧ co_status c' = incomplete.
Proof.
  destruct (update_with_no_items flower_shop demo_uuid 1000 ready_id None None
              ready_run.2 0%nat ready_session)
    as (c' & st' & H1 & _ & H2 & _ & H3 & _).
  - vm_compute. reflexivity.
  - intros [H|H]; vm_compute in H; discriminate.
  - exists c', st'. conjuncts; assumption.
Defined.

Lemma create_select_complete_witness :
  ∃ c st1 c3 st3,
    post_checkout_sessions flower_shop demo_uuid 0 (create_with mixed_requests None)
      empty_store = (json (body_checkout c) 201, st1) ∧
    post_complete demo_uuid 2000 2000 (co_id c)
      (pay_with (Some "mock-payment-handler") (Some "success_token"))
      (put_checkout_session flower_shop demo_uuid 1000 (co_id c)
         (select_instrument "mock-instrument-1") st1).2
    = (json (body_checkout c3) 200, st3) ∧
    co_status c3 = completed.
Proof.
  destruct (create_select_complete flower_shop demo_uuid 0 1000 2000 2000
              (create_with mixed_requests None) empty_store mixed_requests "USD"
              "mock-instrument-1" None None
              (pay_with (Some "mock-payment-handler") (Some "success_token"))
              {| pd_handler_id := Some "mock-payment-handler";
                 pd_token := Some "success_token" |})
    as (c & st1 & c2 & st2 & c3 & st3 & o & H1 & H2 & H3 & _ & H4 & _);
    [ground.. |].
  exists c, st1, c3, st3. unfold select_instrument. rewrite H2. conjuncts; assumption.
Defined.



(** ** The edge worker *)

Section WorkerFacts.

Variable products : list Product.
Variable generateId : nat -> string.

Implicit Types (st : Worker.Store) (c : Worker.Checkout) (l : nat) (key : string).

(** X22. The worker and the service compute the same totals. *)
Theorem worker_totals_agree items :
  Worker.calculateTotals items = calculateTotals items.
Proof.
  unfold Worker.calculateTotals, calculateTotals. cbn zeta.
  by rewrite Z.sub_0_r.
Qed.

Lemma catalog_map_lookup key :
  catalog_map products !! key = Worker.getProduct products key.
Proof.
  unfold catalog_map, Worker.getProduct.
  induction products as [|p ps IH]; [done|].
  cbn [fmap list_fmap list_to_map foldr find fst snd].
  destruct (decide (product_id p = key)) as [<-|Hne].
  - rewrite bool_decide_eq_true_2 by done. apply lookup_insert_eq.
  - rewrite bool_decide_eq_false_2 by done.
    rewrite lookup_insert_ne by done. apply IH.
Qed.

Lemma getProduct_elem key p :
  Worker.getProduct products key = Some p → p ∈ products.
Proof.
  unfold Worker.getProduct. intros H. apply find_some in H as [Hin _].
  by apply list_elem_of_In.
Qed.

(** X23. The worker's resolver has no currency check.  When every product of the
    catalog is priced in the requested currency, it resolves a request list
    as the service's resolver does over the same catalog. *)
Theorem worker_resolve_agrees requests currency n :
  (∀ p, p ∈ products → product_currency p = currency) →
  Worker.resolveLineItems products generateId requests currency n =
  resolveLineItems (catalog_map products) generateId requests currency n.
Proof.
  intros Hcur. unfold Worker.resolveLineItems, resolveLineItems.
  generalize (@nil LineItemResponse, @nil string, n).
  induction requests as [|req requests IH]; intros acc; [done|].
  cbn [fold_left]. rewrite IH. f_equal.
  destruct acc as [[items errors] k].
  unfold Worker.resolve_step, resolve_step, getProduct.
  rewrite catalog_map_lookup.
  destruct (Worker.getProduct products (req_item_id req)) as [p|] eqn:Hp; [|done].
  destruct (negb (product_in_stock p)); [done|].
  rewrite (bool_decide_eq_true_2 _ (Hcur p (getProduct_elem _ _ Hp))). done.
Qed.

Lemma worker_get_Some key st l c :
  Worker.get key st = Some (l, c) ↔
  Worker.checkoutSessions st !! key = Some l ∧ Worker.heap st !! l = Some c.
Proof.
  unfold Worker.get. split.
  - destruct (Worker.checkoutSessions st !! key) as [l'|]; [|done].
    destruct (Worker.heap st !! l') as [c'|] eqn:Hh; [|done].
    intros [= <- <-]. done.
  - intros [-> ->]. done.
Qed.

Lemma worker_get_assign key st l c c' :
  Worker.get key st = Some (l, c) →
  Worker.get key (Worker.assign l c' st) = Some (l, c').
Proof.
  intros [Hs Hh]%worker_get_Some. apply worker_get_Some. simpl. split; [done|].
  apply list_lookup_insert_eq. by eapply lookup_lt_Some.
Qed.

Lemma worker_get_set key st l c :
  Worker.get key st = Some (l, c) →
  Worker.get key (Worker.set key l st) = Some (l, c).
Proof.
  intros [Hs Hh]%worker_get_Some. apply worker_get_Some. simpl. split; [|done].
  apply lookup_insert_eq.
Qed.


(** X25. A declined payment in the worker.  Complete with [fail_token] on a
    [ready_for_complete] session answers 400; the payment status [failed]
    is stored, through the shared object, although the worker does not save
    the session; the session stays [ready_for_complete] with its messages,
    the session map and the orders are as before. *)
Theorem worker_decline now key body st l c :
  Worker.get key st = Some (l, c) →
  Worker.status c = ready_for_complete →
  (payment_data body ≫= pd_token) = Some "fail_token" →
  ∃ c' st',
    Worker.handleCompleteCheckout generateId now key body st
      = (Worker.jsonResponse (Worker.body_checkout c') 400, st') ∧
    Worker.get key st' = Some (l, c') ∧
    pay_status (Worker.payment c') = failed ∧
    Worker.status c' = ready_for_complete ∧
    Worker.messages c' = Worker.messages c ∧
    Worker.checkoutSessions st' = Worker.checkoutSessions st ∧
    Worker.orders st' = Worker.orders st.
Proof.
  intros Hg Hs Ht. unfold Worker.handleCompleteCheckout.
  rewrite Hg, Hs, Ht. cbn [negb]. rewrite !bool_decide_eq_true_2 by done. cbn [negb].
  eexists _, _. split; [reflexivity|].
  split; [by eapply worker_get_assign|].
  split; [reflexivity|]. split; [exact Hs|]. split; reflexivity || (split; reflexivity).
Qed.

(** X26. The worker's Complete asks for no handler id.  On a
    [ready_for_complete] session, any payment data whose token is not
    [fail_token], even none at all, complete the session: the answer is 200,
    the session is [completed] with payment [captured], and the order filed
    under the session's reference holds the key the session was completed
    under. *)
Theorem worker_complete now key body st l c :
  Worker.get key st = Some (l, c) →
  Worker.status c = ready_for_complete →
  (payment_data body ≫= pd_token) ≠ Some "fail_token" →
  ∃ c' o st',
    Worker.handleCompleteCheckout generateId now key body st
      = (Worker.jsonResponse (Worker.body_checkout c') 200, st') ∧
    Worker.get key st' = Some (l, c') ∧
    Worker.status c' = completed ∧
    pay_status (Worker.payment c') = captured ∧
    Worker.order c' = Some {| oc_id := Worker.order_id o; oc_created_at := now |} ∧
    Worker.orders st' !! Worker.order_id o = Some o ∧
    Worker.order_checkout_id o = key ∧
    Worker.line_items c' = Worker.line_items c.
Proof.
  intros Hg Hs Ht. unfold Worker.handleCompleteCheckout.
  rewrite Hg, Hs. rewrite bool_decide_eq_true_2 by done. cbn [negb].
  rewrite (bool_decide_eq_false_2 _ Ht).
  eexists _, _, _. split; [reflexivity|].
  split.
  { apply worker_get_set. eapply worker_get_assign.
    apply worker_get_Some. apply worker_get_Some in Hg. exact Hg. }
  split; [reflexivity|]. split; [reflexivity|]. split; [reflexivity|].
  split; [apply lookup_insert_eq|]. split; reflexivity.
Qed.


End WorkerFacts.

Lemma worker_resolve_agrees_witness :
  Worker.resolveLineItems gadget_catalog demo_uuid
    [request "smart-glasses" 1; request "brain-band" 1] "USD" 0
  = resolveLineItems (catalog_map gadget_catalog) demo_uuid
      [request "smart-glasses" 1; request "brain-band" 1] "USD" 0.
Proof.
  apply worker_resolve_agrees.
  apply Forall_forall. repeat constructor.
Defined.


Lemma worker_decline_witness :
  ∃ c' st',
    Worker.handleCompleteCheckout demo_uuid 1000 ready_id
      (pay_with None (Some "fail_token")) worker_ready_run.2
    = (Worker.jsonResponse (Worker.body_checkout c') 400, st') ∧
    Worker.get ready_id st' = Some (0%nat, c') ∧
    pay_status (Worker.payment c') = failed.
Proof.
  edestruct (worker_decline demo_uuid 1000 ready_id (pay_with None (Some "fail_token"))
               worker_ready_run.2 0%nat) as (c' & st' & H1 & H2 & H3 & _);
    [vm_compute; reflexivity ..|].
  exists c', st'. conjuncts; assumption.
Defined.

Lemma worker_complete_witness :
  ∃ c' st',
    Worker.handleCompleteCheckout demo_uuid 1000 ready_id
      {| payment_data := None |} worker_ready_run.2
    = (Worker.jsonResponse (Worker.body_checkout c') 200, st') ∧
    Worker.status c' = completed.
Proof.
  edestruct (worker_complete demo_uuid 1000 ready_id {| payment_data := None |}
               worker_ready_run.2 0%nat) as (c' & o & st' & H1 & _ & H2 & _);
    [vm_compute; reflexivity | vm_compute; reflexivity | ground |].
  exists c', st'. conjuncts; assumption.
Defined.

